(** * DuckEncoder: DuckyScript to USB HID byte pairs

    A shallow embedding of [duckencoder.py] (the static methods of class
    [DuckEncoder]: [prop2USBByte], [delay2USBBytes], [keyInstr2USBBytes],
    [ASCIIChar2USBBytes], [parseScriptLine], [parseScript], and the pair
    reader of [out2hid]) together with the properties its specification
    states about them.

    The program is Python 2 (integer [/], byte strings, [chr] on 0..255):
    a [str] is modelled as a [string] of 8-bit characters, an [int] as [Z],
    a [dict] from names to values as [gmap string string].  What the program
    writes to standard output and standard error is kept in a log, and an
    uncaught exception ends the computation with the log written so far. *)

From Stdlib Require Import ZArith Ascii String List Lia HexString.
From stdpp Require Import gmap strings.

Local Open Scope Z_scope.

(** ** Effects: diagnostics and exceptions *)

Inductive chan := Stdout | Stderr.

Inductive exn := TypeError | ValueError | IndexError | UnboundLocalError.

Inductive outcome (A : Type) :=
| Ret (a : A)
| Raise (e : exn).
Arguments Ret {A} a.
Arguments Raise {A} e.

(** A computation: what was written, in order, and how it ended. *)
Definition M (A : Type) : Type := list (chan * string) * outcome A.

Definition ret {A} (a : A) : M A := ([], Ret a).
Definition raise {A} (e : exn) : M A := ([], Raise e).
Definition bind {A B} (m : M A) (k : A → M B) : M B :=
  match m with
  | (w, Ret a) => let '(w', r) := k a in (w ++ w', r)
  | (w, Raise e) => (w, Raise e)
  end.

Notation "x <- m ;; k" := (bind m (λ x, k))
  (at level 100, m at next level, right associativity).
Notation "m ;;; k" := (bind m (λ _, k))
  (at level 100, right associativity).

Definition on_stdout (d : chan * string) : Prop := d.1 = Stdout.

Instance chan_eq_dec : EqDecision chan.
Proof. solve_decision. Defined.

Instance exn_eq_dec : EqDecision exn.
Proof. solve_decision. Defined.

(** ** The Python 2 built-ins the encoder uses *)

Module Py.

Definition nl : string := String "010" "".
Definition cr : string := String "013" "".

(** [print(s)]: the text and a newline on standard output. *)
Definition print (s : string) : M unit := ([(Stdout, s +:+ nl)], Ret tt).

(** [sys.stderr.write(s)] *)
Definition stderr_write (s : string) : M unit := ([(Stderr, s)], Ret tt).

Definition len (s : string) : Z := Z.of_nat (String.length s).

(** [ord(c)] of a character, and of a [str], which must have length 1. *)
Definition ord (c : ascii) : Z := Z.of_N (N_of_ascii c).

Definition ord_str (s : string) : M Z :=
  match s with
  | String c "" => ret (ord c)
  | _ => raise TypeError
  end.

(** [chr(k)]: a one-character [str]; outside [range(256)] it raises
    (ValueError; for an argument beyond a C long CPython reports
    OverflowError, which ends the call the same way). *)
Definition chr (k : Z) : M string :=
  if decide (0 ≤ k < 256) then ret (String (ascii_of_N (Z.to_N k)) "")
  else raise ValueError.

(** [s[0]] *)
Definition first (s : string) : M string :=
  match s with
  | String c _ => ret (String c "")
  | "" => raise IndexError
  end.

(** [s[0:n]] and [s[n:]] *)
Fixpoint slice_to (n : nat) (s : string) : string :=
  match n, s with
  | S n, String c r => String c (slice_to n r)
  | _, _ => ""
  end.

Fixpoint slice_from (n : nat) (s : string) : string :=
  match n, s with
  | S n, String _ r => slice_from n r
  | _, _ => s
  end.

(** [s.upper()] in the C locale: the letters a..z only. *)
Definition upper_char (c : ascii) : ascii :=
  let n := N_of_ascii c in
  if ((97 <=? n) && (n <=? 122))%N then ascii_of_N (n - 32) else c.

Fixpoint upper (s : string) : string :=
  match s with
  | "" => ""
  | String c r => String (upper_char c) (upper r)
  end.

(** [s.strip()]: white space is space, tab, newline, vertical tab, form
    feed and carriage return. *)
Fixpoint lstrip (s : string) : string :=
  match s with
  | String c r => if Ascii.is_space c then lstrip r else s
  | "" => ""
  end.

Definition rstrip (s : string) : string :=
  String.rev (lstrip (String.rev s)).

Definition strip (s : string) : string := rstrip (lstrip s).

(** [s.startswith(p)] *)
Definition startswith (p s : string) : bool := String.prefix p s.

(** [s.partition(sep)] for a one-character separator: the text before
    the first separator, the separator, the text after it; with no
    separator in [s], [(s, "", "")]. *)
Fixpoint partition (sep : ascii) (s : string) : string * string * string :=
  match s with
  | "" => ("", "", "")
  | String c r =>
      if decide (c = sep) then ("", String sep "", r)
      else let '(a, p, b) := partition sep r in (String c a, p, b)
  end.

(** [s.split(sep, 1)] for a one-character separator: one or two pieces. *)
Definition split1 (sep : ascii) (s : string) : list string :=
  match partition sep s with
  | (a, "", _) => [a]
  | (a, _, b) => [a; b]
  end.

(** [s.split(sep)] for a one-character separator: never an empty list. *)
Fixpoint split (sep : ascii) (s : string) : list string :=
  match s with
  | "" => [""]
  | String c r =>
      if decide (c = sep) then "" :: split sep r
      else match split sep r with
           | h :: t => String c h :: t
           | [] => [String c ""]
           end
  end.

(** [s.replace(old, new)] for a non-empty [old]: occurrences are found
    from the left and do not overlap; [skip] counts the characters of a
    match still to be dropped. *)
Fixpoint replace_go (old new : string) (skip : nat) (s : string) : string :=
  match s with
  | "" => ""
  | String c r =>
      match skip with
      | S k => replace_go old new k r
      | O =>
          if String.prefix old s
          then new +:+ replace_go old new (Nat.pred (String.length old)) r
          else String c (replace_go old new 0 r)
      end
  end.

Definition replace (old new s : string) : string := replace_go old new 0 s.

(** [s.splitlines(True)] on a byte string: a line ends at "\n", "\r" or
    "\r\n", and keeps its terminator; [cur] is the line being read. *)
Fixpoint splitlines_go (cur s : string) : list string :=
  match s with
  | "" => match cur with "" => [] | _ => [cur] end
  | String c r =>
      if decide (c = "010"%char) then (cur +:+ nl) :: splitlines_go "" r
      else if decide (c = "013"%char) then
        match r with
        | String "010"%char r' => (cur +:+ cr +:+ nl) :: splitlines_go "" r'
        | _ => (cur +:+ cr) :: splitlines_go "" r
        end
      else splitlines_go (cur +:+ String c "") r
  end.

Definition splitlines_keepends (s : string) : list string :=
  splitlines_go "" s.

(** [hex(n)] of a non-negative [int]: "0x" and lower-case digits. *)
Definition hex (n : Z) : string := HexString.of_Z n.

(** [int(s, base)] for base 10 and 16: white space around the literal is
    dropped, one sign is allowed, base 16 allows a "0x"/"0X" prefix, and
    at least one digit must follow; anything else is a ValueError. *)
Definition digit_of (c : ascii) : option Z :=
  let n := N_of_ascii c in
  if ((48 <=? n) && (n <=? 57))%N then Some (Z.of_N (n - 48))
  else if ((97 <=? n) && (n <=? 122))%N then Some (Z.of_N (n - 87))
  else if ((65 <=? n) && (n <=? 90))%N then Some (Z.of_N (n - 55))
  else None.

Fixpoint digits (base acc : Z) (s : string) : option Z :=
  match s with
  | "" => Some acc
  | String c r =>
      match digit_of c with
      | Some d => if decide (d < base) then digits base (base * acc + d) r
                  else None
      | None => None
      end
  end.

Definition unsigned_literal (base : Z) (s : string) : option Z :=
  let body :=
    if decide (base = 16 ∧ upper (slice_to 2 s) = "0X") then slice_from 2 s
    else s in
  match body with
  | "" => None
  | _ => digits base 0 body
  end.

Definition literal (base : Z) (s : string) : option Z :=
  match strip s with
  | String "-"%char r => Z.opp <$> unsigned_literal base r
  | String "+"%char r => unsigned_literal base r
  | r => unsigned_literal base r
  end.

Definition int (base : Z) (s : string) : M Z :=
  match literal base s with
  | Some n => ret n
  | None => raise ValueError
  end.

(** [range(n)] as the number of iterations of [for i in range(n)]. *)
Definition range (n : Z) : nat := Z.to_nat n.

(** [s.split(sep)[0]] for a non-empty [sep]: the text before the first
    occurrence of [sep], or all of [s]. *)
Fixpoint split_head (sep s : string) {struct s} : string :=
  if String.prefix sep s then ""
  else match s with
       | "" => ""
       | String c r => String c (split_head sep r)
       end.

End Py.

(** ** The encoder *)

Module DuckEncoder.

(** A local variable holding a table value: not yet assigned ([None]),
    or assigned Python's [None] ([Some None]) or a [str]. *)
Definition local : Type := option (option string).

Definition read (v : local) : M (option string) :=
  match v with
  | Some x => ret x
  | None => raise UnboundLocalError
  end.

(** [if k in keyProp: keyval = keyProp[k] elif k in langProp: keyval =
    langProp[k]], the assignment that three methods share: [keyval]
    keeps its former state when [k] is in neither table. *)
Definition assign_keyval (k : string) (keyProp langProp : gmap string string)
    (keyval : local) : local :=
  match keyProp !! k with
  | Some v => Some (Some v)
  | None =>
      match langProp !! k with
      | Some v => Some (Some v)
      | None => keyval
      end
  end.

(** [chr(int(keyval, 16) if keyval[0:2].upper() == "0X" else int(keyval))] *)
Definition keyval2chr (keyval : string) : M string :=
  k <- (if decide (Py.upper (Py.slice_to 2 keyval) = "0X")
        then Py.int 16 keyval else Py.int 10 keyval) ;;
  Py.chr k.

Definition prop2USBByte (prop : string) (keyProp langProp : gmap string string)
    : M string :=
  let keyval := assign_keyval prop keyProp langProp None in
  v <- read keyval ;;
  match v with
  | None =>
      Py.print ("Error: No keycode entry for " +:+ prop) ;;;
      Py.print "Warning this could corrupt generated output file" ;;;
      ret ""
  | Some keyval => keyval2chr keyval
  end.

(** A call of [prop2USBByte] with the positional arguments [args]: the
    method has three parameters and no defaults. *)
Inductive arg :=
| AStr (s : string)
| ADict (d : gmap string string).

Definition call_prop2USBByte (args : list arg) : M string :=
  match args with
  | [AStr prop; ADict keyProp; ADict langProp] =>
      prop2USBByte prop keyProp langProp
  | _ => raise TypeError
  end.

Fixpoint repeat_str (n : nat) (s : string) : string :=
  match n with
  | O => ""
  | S n => s +:+ repeat_str n s
  end.

Definition x00 : string := String "000" "".
Definition xFF : string := String "255" "".

(** [count = delay / 255] is Python 2's floor division of integers. *)
Definition delay2USBBytes (delay : Z) : M string :=
  let count := delay / 255 in
  let remain := delay mod 255 in
  let result := repeat_str (Py.range count) (x00 +:+ xFF) in
  c <- Py.chr remain ;;
  ret (result +:+ x00 +:+ c).

(** The name of a character in the language table. *)
Definition charName (char : ascii) : string :=
  let val := Py.ord char in
  let hexval := Py.upper (Py.slice_from 2 (Py.hex val)) in
  let hexval := if decide (Py.len hexval = 1) then "0" +:+ hexval else hexval in
  if decide (val < 128) then "ASCII_" +:+ hexval
  else "ISO_8859_1_" +:+ hexval.

(** The loop of [ASCIIChar2USBBytes] over the entries of a language
    table value either runs to its end with [result], or leaves the
    method through [return ""]. *)
Inductive flow :=
| Next (result : string)
| Return (v : string).

Fixpoint entries_loop (keyProp langProp : gmap string string)
    (entries : list string) (result : string) : M flow :=
  match entries with
  | [] => ret (Next result)
  | key_entry :: rest =>
      let key_entry := Py.strip key_entry in
      match assign_keyval key_entry keyProp langProp (Some None) with
      | Some (Some keyval) =>
          c <- keyval2chr keyval ;;
          entries_loop keyProp langProp rest (result +:+ c)
      | _ =>
          Py.print ("Error: No keycode entry for " +:+ key_entry) ;;;
          Py.print "Warning this could corrupt generated output file" ;;;
          ret (Return "")
      end
  end.

Definition ASCIIChar2USBBytes (char : ascii)
    (keyProp langProp : gmap string string) : M string :=
  let name := charName char in
  match langProp !! name with
  | None =>
      Py.print (String char "" +:+ " interpreted as " +:+ name +:+
                ", but not found in chosen language property file. Skipping character!") ;;;
      ret ""
  | Some names =>
      f <- entries_loop keyProp langProp (Py.split "," names) "" ;;
      match f with
      | Return v => ret v
      | Next result =>
          if decide (Py.len result = 1) then ret (result +:+ x00)
          else ret result
      end
  end.

(** The dict literal of [keyInstr2USBBytes], in source order. *)
Definition aliases : list (string * string) :=
  [ ("ESCAPE", "ESC"); ("RETURN", "ENTER"); ("DEL", "DELETE");
    ("BREAK", "PAUSE"); ("CONTROL", "CTRL"); ("DOWNARROW", "DOWN");
    ("UPARROW", "UP"); ("LEFTARROW", "LEFT"); ("RIGHTARROW", "RIGHT");
    ("MENU", "APP"); ("WINDOWS", "GUI"); ("PLAY", "MEDIA_PLAY_PAUSE");
    ("PAUSE", "MEDIA_PLAY_PAUSE"); ("STOP", "MEDIA_STOP");
    ("MUTE", "MEDIA_MUTE"); ("VOLUMEUP", "MEDIA_VOLUME_INC");
    ("VOLUMEDOWN", "MEDIA_VOLUME_DEC"); ("SCROLLLOCK", "SCROLL_LOCK");
    ("NUMLOCK", "NUM_LOCK"); ("CAPSLOCK", "CAPS_LOCK") ].

(** [{...}.get(k)] *)
Definition aliases_get (k : string) : option string :=
  (list_to_map aliases : gmap string string) !! k.

Definition keyInstr2USBBytes (keyinstr : string)
    (keyProp langProp : gmap string string) : M string :=
  if decide (Py.len keyinstr = 1) then
    match keyinstr with
    | String c _ =>
        keydata <- ASCIIChar2USBBytes c keyProp langProp ;;
        Py.first keydata
    | "" => raise IndexError
    end
  else
    let key_entry := "KEY_" +:+ Py.strip keyinstr in
    (* first attempt *)
    let keyval := assign_keyval key_entry keyProp langProp (Some None) in
    let '(key_entry, keyval) :=
      match keyval with
      | Some None =>
          match aliases_get (Py.upper (Py.strip keyinstr)) with
          | Some keyinstr =>
              if decide (keyinstr = "") then (key_entry, keyval)
              else
                (* second attempt *)
                let key_entry := "KEY_" +:+ Py.strip keyinstr in
                (key_entry, assign_keyval key_entry keyProp langProp keyval)
          | None => (key_entry, keyval)
          end
      | _ => (key_entry, keyval)
      end in
    match keyval with
    | Some (Some keyval) => keyval2chr keyval
    | _ =>
        Py.stderr_write ("Error: No keycode entry for " +:+ key_entry +:+ Py.nl) ;;;
        Py.stderr_write ("Warning this could corrupt generated output file" +:+ Py.nl) ;;;
        ret ""
    end.

(** [for c in s: result = body(c, result)] *)
Fixpoint for_chars (s : string) (body : ascii → string → M string)
    (result : string) : M string :=
  match s with
  | "" => ret result
  | String c r => result <- body c result ;; for_chars r body result
  end.

(** [chr(ord(prop2USBByte(p, ..)) | ord(prop2USBByte(q, ..)))] *)
Definition modifier_or (p q : string) (keyProp langProp : gmap string string)
    : M string :=
  a <- prop2USBByte p keyProp langProp ;;
  a <- Py.ord_str a ;;
  b <- prop2USBByte q keyProp langProp ;;
  b <- Py.ord_str b ;;
  Py.chr (Z.lor a b).

Definition parseScriptLine (line : string)
    (keyProp langProp : gmap string string) : M string :=
  let result := "" in
  let '(cmd, _, args) := Py.partition " " line in
  let cmd := Py.strip cmd in
  let args := Py.strip args in
  if decide (cmd = "DELAY") then
    delay <- Py.int 10 args ;;
    delay2USBBytes delay
  else if decide (cmd = "STRING") then
    if decide (args = "") then ret ""
    else
      for_chars args (λ c result,
        keydata <- ASCIIChar2USBBytes c keyProp langProp ;;
        if decide (Py.len keydata > 0) then ret (result +:+ keydata)
        else ret result) result
  else if decide (cmd = "STRING_DELAY") then
    if decide (args = "") then ret ""
    else
      match Py.split1 " " args with
      | [delay; chars] =>
          delay <- Py.int 10 (Py.strip delay) ;;
          delaystr <- delay2USBBytes delay ;;
          for_chars (Py.strip chars) (λ c result,
            keydata <- ASCIIChar2USBBytes c keyProp langProp ;;
            if decide (Py.len keydata > 0)
            then ret (result +:+ keydata +:+ delaystr)
            else ret result) result
      | _ => raise ValueError
      end
  else if decide (cmd ∈ ["CONTROL"; "CTRL"]) then
    if decide (args ≠ "") then
      key <- keyInstr2USBBytes args keyProp langProp ;;
      m <- prop2USBByte "MODIFIERKEY_CTRL" keyProp langProp ;;
      ret (key +:+ m)
    else
      k <- call_prop2USBByte [AStr "KEY_LEFT_CTRL"] ;;
      ret (k +:+ x00)
  else if decide (cmd = "ALT") then
    if decide (args ≠ "") then
      key <- keyInstr2USBBytes args keyProp langProp ;;
      m <- prop2USBByte "MODIFIERKEY_ALT" keyProp langProp ;;
      ret (key +:+ m)
    else
      k <- call_prop2USBByte [AStr "KEY_LEFT_ALT"] ;;
      ret (k +:+ x00)
  else if decide (cmd = "SHIFT") then
    if decide (args ≠ "") then
      key <- keyInstr2USBBytes args keyProp langProp ;;
      m <- prop2USBByte "MODIFIERKEY_SHIFT" keyProp langProp ;;
      ret (key +:+ m)
    else
      k <- call_prop2USBByte [AStr "KEY_LEFT_SHIFT"] ;;
      ret (k +:+ x00)
  else if decide (cmd = "CTRL-ALT") then
    if decide (args ≠ "") then
      key <- keyInstr2USBBytes args keyProp langProp ;;
      m <- modifier_or "MODIFIERKEY_CTRL" "MODIFIERKEY_ALT" keyProp langProp ;;
      ret ((result +:+ key) +:+ m)
    else ret ""
  else if decide (cmd = "CTRL-SHIFT") then
    if decide (args ≠ "") then
      key <- keyInstr2USBBytes args keyProp langProp ;;
      m <- modifier_or "MODIFIERKEY_CTRL" "MODIFIERKEY_SHIFT" keyProp langProp ;;
      ret ((result +:+ key) +:+ m)
    else ret ""
  else if decide (cmd = "COMMAND-OPTION") then
    if decide (args ≠ "") then
      key <- keyInstr2USBBytes args keyProp langProp ;;
      m <- modifier_or "MODIFIERKEY_LEFT_GUI" "MODIFIERKEY_ALT" keyProp langProp ;;
      ret ((result +:+ key) +:+ m)
    else ret ""
  else if decide (cmd = "ALT-SHIFT") then
    if decide (args ≠ "") then
      key <- keyInstr2USBBytes args keyProp langProp ;;
      m <- modifier_or "MODIFIERKEY_LEFT_ALT" "MODIFIERKEY_SHIFT" keyProp langProp ;;
      ret ((result +:+ key) +:+ m)
    else
      key <- prop2USBByte "KEY_LEFT_ALT" keyProp langProp ;;
      m <- modifier_or "MODIFIERKEY_LEFT_ALT" "MODIFIERKEY_SHIFT" keyProp langProp ;;
      ret ((result +:+ key) +:+ m)
  else if decide (cmd = "ALT-TAB") then
    if decide (args ≠ "") then ret ""
    else
      key <- prop2USBByte "KEY_TAB" keyProp langProp ;;
      m <- prop2USBByte "MODIFIERKEY_LEFT_ALT" keyProp langProp ;;
      ret ((result +:+ key) +:+ m)
  else if decide (cmd ∈ ["GUI"; "WINDOWS"]) then
    if decide (args ≠ "") then
      key <- keyInstr2USBBytes args keyProp langProp ;;
      m <- prop2USBByte "MODIFIERKEY_LEFT_GUI" keyProp langProp ;;
      ret (key +:+ m)
    else
      key <- prop2USBByte "KEY_LEFT_GUI" keyProp langProp ;;
      m <- prop2USBByte "MODIFIERKEY_LEFT_GUI" keyProp langProp ;;
      ret (key +:+ m)
  else if decide (cmd = "COMMAND") then
    if decide (args ≠ "") then
      key <- keyInstr2USBBytes args keyProp langProp ;;
      m <- prop2USBByte "MODIFIERKEY_LEFT_GUI" keyProp langProp ;;
      ret (key +:+ m)
    else
      key <- prop2USBByte "KEY_COMMAND" keyProp langProp ;;
      ret (key +:+ x00)
  else
    key <- keyInstr2USBBytes cmd keyProp langProp ;;
    ret (key +:+ x00).

(** [for i in range(n): result += parseScriptLine(lastLine, ..)] *)
Fixpoint repeat_line (n : nat) (lastLine : string)
    (keyProp langProp : gmap string string) (result : string) : M string :=
  match n with
  | O => ret result
  | S n =>
      r <- parseScriptLine lastLine keyProp langProp ;;
      repeat_line n lastLine keyProp langProp (result +:+ r)
  end.

(** One turn of the loop of [parseScript] on the variables [result] and
    [lastLine]; [continue] leaves both as they are. *)
Definition parseScript_step (keyProp langProp : gmap string string)
    (st : string * option string) (l : string) : M (string * option string) :=
  let '(result, lastLine) := st in
  let l := Py.replace Py.nl "" (Py.replace (Py.cr +:+ Py.nl) "" (Py.strip l)) in
  if bool_decide (Py.len l = 0) || Py.startswith "//" l || Py.startswith "REM " l
  then ret st
  else if decide (Py.slice_to 7 l = "REPEAT ") then
    match Py.split1 " " l, lastLine with
    | [_; count], Some last =>
        n <- Py.int 10 (Py.strip count) ;;
        result <- repeat_line (Py.range n) last keyProp langProp result ;;
        ret (result, Some l)
    | _, _ => ret st
    end
  else
    r <- parseScriptLine l keyProp langProp ;;
    ret (result +:+ r, Some l).

Fixpoint parseScript_loop (keyProp langProp : gmap string string)
    (lines : list string) (st : string * option string) : M string :=
  match lines with
  | [] => ret st.1
  | l :: lines =>
      st <- parseScript_step keyProp langProp st l ;;
      parseScript_loop keyProp langProp lines st
  end.

Definition parseScript (source : string)
    (keyProp langProp : gmap string string) : M string :=
  parseScript_loop keyProp langProp (Py.splitlines_keepends source) ("", None).

(** [out2hid] reads the payload two bytes at a time and, for a pair
    whose key byte is zero, sleeps [mod / 1000.0] seconds: the total it
    sleeps for, in milliseconds.  A last byte without a partner is
    passed over. *)
Fixpoint out2hid_sleep_ms (data : string) : Z :=
  match data with
  | String key (String mod_ rest) =>
      (if decide (Py.ord key = 0) then Py.ord mod_ else 0)
      + out2hid_sleep_ms rest
  | _ => 0
  end.

(** The loop of [readResource] over the lines that [readlines] gave: one
    turn on the dictionary built so far.  The unpacking of
    [l.split("=", 1)] into key and value fails unless the split gives two
    pieces. *)
Definition readResource_step (result_dict : gmap string string) (l : string)
    : M (gmap string string) :=
  let l := Py.split_head "//" l in
  let l := Py.replace Py.nl "" (Py.replace (Py.cr +:+ Py.nl) "" (Py.strip l)) in
  if decide (Py.len l = 0) then ret result_dict
  else
    match Py.split1 "=" l with
    | [key; val] => ret (<[Py.strip key := Py.strip val]> result_dict)
    | _ => raise ValueError
    end.

Fixpoint readResource_loop (lines : list string)
    (result_dict : gmap string string) : M (gmap string string) :=
  match lines with
  | [] => ret result_dict
  | l :: lines =>
      result_dict <- readResource_step result_dict l ;;
      readResource_loop lines result_dict
  end.

(** [readResource] on the lines of the file it was given. *)
Definition readResource (lines : list string) : M (gmap string string) :=
  readResource_loop lines ∅.

(** What [out2hid] does at the device, in order: it sleeps for a delay
    code, and it writes a report of 16 bytes for every pair, a delay code
    included.  [chr(mod)] and [chr(key)] are the bytes read. *)
Inductive hid_event :=
| Sleep (ms : Z)
| Write (report : string).

Definition report (key mod_ : ascii) : string :=
  String mod_ x00 +:+ String key "" +:+ repeat_str 5 x00 +:+ repeat_str 8 x00.

Fixpoint out2hid (data : string) : list hid_event :=
  match data with
  | String key (String mod_ rest) =>
      (if decide (Py.ord key = 0) then [Sleep (Py.ord mod_)] else [])
      ++ Write (report key mod_) :: out2hid rest
  | _ => []
  end.

(** [outhidString]: the payload of all characters, then [out2hid]. *)
Definition outhidString (str : string) (keyProp langProp : gmap string string)
    : M (list hid_event) :=
  payload <- for_chars str (λ c payload,
               data <- ASCIIChar2USBBytes c keyProp langProp ;;
               ret (payload +:+ data)) "" ;;
  ret (out2hid payload).

(** [outhidStringDirect]: the device is open while the characters are
    resolved one by one, so what was written stays written when a later
    character raises: the events, and how the method ended. *)
Fixpoint outhidStringDirect (str : string)
    (keyProp langProp : gmap string string) : list hid_event * M unit :=
  match str with
  | "" => ([], ret tt)
  | String c rest =>
      match ASCIIChar2USBBytes c keyProp langProp with
      | (w, Ret data) =>
          let '(events, (w', r)) := outhidStringDirect rest keyProp langProp in
          (out2hid data ++ events, (w ++ w', r))
      | (w, Raise e) => ([], (w, Raise e))
      end
  end.

(** The raw passthrough of [main]: [for line in source] runs over the
    characters of the [str], and [for c in line] over that one character. *)
Definition rawpassthru (source : string) (keyProp langProp : gmap string string)
    : M string :=
  for_chars source (λ line result,
    for_chars (String line "") (λ c result,
      keydata <- ASCIIChar2USBBytes c keyProp langProp ;;
      if decide (Py.len keydata > 0) then ret (result +:+ keydata)
      else ret result) result) "".

End DuckEncoder.

(** ** Vocabulary of the properties *)

(** Nothing was written to standard error. *)
Definition quiet (w : list (chan * string)) : Prop := Forall on_stdout w.

(** [m] admits the postcondition [Q]: whenever it returns a value with
    nothing written to standard error, the value satisfies [Q]. *)
Definition has_post {A} (m : M A) (Q : A → Prop) : Prop :=
  ∀ w a, m = (w, Ret a) → quiet w → Q a.

(** The payload is made of (keycode, modifier) pairs. *)
Definition pair_aligned (payload : string) : Prop :=
  Nat.Even (String.length payload).

(** The value a table entry name stands for: keyboard table first, then
    language table. *)
Definition table_value (keyProp langProp : gmap string string) (name : string)
    : option string :=
  match keyProp !! name with
  | Some v => Some v
  | None => langProp !! name
  end.

(** The byte a table value denotes: hexadecimal after "0x"/"0X", decimal
    otherwise, within 0..255. *)
Definition value_byte (v : string) (b : ascii) : Prop :=
  ∃ k, Py.literal (if decide (Py.upper (Py.slice_to 2 v) = "0X") then 16 else 10) v
         = Some k
       ∧ 0 ≤ k < 256 ∧ b = ascii_of_N (Z.to_N k).

(** The byte of an entry name. *)
Definition entry_byte (keyProp langProp : gmap string string) (name : string)
    (b : ascii) : Prop :=
  ∃ v, table_value keyProp langProp name = Some v ∧ value_byte v b.

(** Every character entry of the language table names at most two keys. *)
Definition two_names_at_most (langProp : gmap string string) : Prop :=
  ∀ c names, langProp !! DuckEncoder.charName c = Some names →
    (length (Py.split "," names) ≤ 2)%nat.

(** The two hexadecimal digits of a byte, upper case. *)
Definition hex_digit (n : Z) : ascii :=
  ascii_of_N (Z.to_N (if decide (n < 10) then 48 + n else 55 + n)).

Definition hex2 (n : Z) : string :=
  String (hex_digit (n / 16)) (String (hex_digit (n mod 16)) "").

(** The pair that stands for a full step of 255 ms, and the pair for the
    remaining [r] ms. *)
Definition full_step : string := String "000" (String "255" "").

Definition last_step (r : Z) : string :=
  String "000" (String (ascii_of_N (Z.to_N r)) "").

(** The command and the argument text that [parseScriptLine] reads off a
    line. *)
Definition cmd_of (line : string) : string :=
  Py.strip (Py.partition " " line).1.1.

Definition args_of (line : string) : string :=
  Py.strip (Py.partition " " line).2.

(** A script line as the loop of [parseScript] sees it. *)
Definition clean (l : string) : string :=
  Py.replace Py.nl "" (Py.replace (Py.cr +:+ Py.nl) "" (Py.strip l)).

(** Two small tables in the format of the resource files: the keyboard
    table gives key and modifier codes, the language table spells
    characters as entry names. *)
Definition sample_keyboard : gmap string string :=
  list_to_map
    [ ("KEY_A", "0x04"); ("KEY_TAB", "0x2B"); ("KEY_ENTER", "40");
      ("KEY_LEFT_CTRL", "0xE0"); ("KEY_LEFT_ALT", "0xE2");
      ("KEY_LEFT_SHIFT", "0xE1");
      ("MODIFIERKEY_CTRL", "0x01"); ("MODIFIERKEY_SHIFT", "0x02");
      ("MODIFIERKEY_ALT", "0x04"); ("MODIFIERKEY_LEFT_ALT", "0x04") ].

Definition sample_language : gmap string string :=
  list_to_map
    [ ("ASCII_41", "KEY_A, MODIFIERKEY_SHIFT"); ("ASCII_61", "KEY_A") ].

(** A language table whose entry for the letter a names three keys. *)
Definition three_names_language : gmap string string :=
  list_to_map
    [ ("ASCII_61", "KEY_A, MODIFIERKEY_SHIFT, MODIFIERKEY_ALT") ].

(** The commands that [parseScriptLine] knows; any other first word is
    read as a key name. *)
Definition keywords : list string :=
  [ "DELAY"; "STRING"; "STRING_DELAY"; "CONTROL"; "CTRL"; "ALT"; "SHIFT";
    "CTRL-ALT"; "CTRL-SHIFT"; "COMMAND-OPTION"; "ALT-SHIFT"; "ALT-TAB";
    "GUI"; "WINDOWS"; "COMMAND" ].

(** Only standard error was written to, and something was. *)
Definition complains (w : list (chan * string)) : Prop :=
  w ≠ [] ∧ Forall (λ d, d.1 = Stderr) w.

(** The reports among the events at the device, and the time slept. *)
Definition writes (events : list DuckEncoder.hid_event) : list string :=
  omap (λ e, match e with DuckEncoder.Write r => Some r | _ => None end) events.

Definition slept (events : list DuckEncoder.hid_event) : Z :=
  foldr (λ e t, match e with DuckEncoder.Sleep ms => ms + t | _ => t end) 0 events.

(** The lines of one modifier and a key: the command and the name of its
    modifier. *)
Definition single_modifiers : list (string * string) :=
  [ ("CONTROL", "MODIFIERKEY_CTRL"); ("CTRL", "MODIFIERKEY_CTRL");
    ("ALT", "MODIFIERKEY_ALT"); ("SHIFT", "MODIFIERKEY_SHIFT");
    ("GUI", "MODIFIERKEY_LEFT_GUI"); ("WINDOWS", "MODIFIERKEY_LEFT_GUI");
    ("COMMAND", "MODIFIERKEY_LEFT_GUI") ].

(** The lines of two modifiers and a key: the command and the names of
    its modifiers. *)
Definition compound_modifiers : list (string * (string * string)) :=
  [ ("CTRL-ALT", ("MODIFIERKEY_CTRL", "MODIFIERKEY_ALT"));
    ("CTRL-SHIFT", ("MODIFIERKEY_CTRL", "MODIFIERKEY_SHIFT"));
    ("COMMAND-OPTION", ("MODIFIERKEY_LEFT_GUI", "MODIFIERKEY_ALT"));
    ("ALT-SHIFT", ("MODIFIERKEY_LEFT_ALT", "MODIFIERKEY_SHIFT")) ].

(** The bitwise or of two bytes. *)
Definition byte_or (a b : ascii) : ascii :=
  ascii_of_N (N.lor (N_of_ascii a) (N_of_ascii b)).

(** The bytes of a delay of [d] ms. *)
Definition delay_bytes (d : Z) : string :=
  DuckEncoder.repeat_str (Z.to_nat (d / 255)) full_step +:+ last_step (d mod 255).

(** The characters of a text, each with what [ASCIIChar2USBBytes] writes
    and returns for it. *)
Definition chars_encode (keyProp langProp : gmap string string) (text : string)
    (encs : list (list (chan * string) * string)) : Prop :=
  Forall2 (λ c e, DuckEncoder.ASCIIChar2USBBytes c keyProp langProp
                  = (e.1, Ret e.2))
    (list_ascii_of_string text) encs.

(** A line that the loop of [parseScript] passes over: blank, or a
    comment. *)
Definition skipped (l : string) : Prop :=
  clean l = "" ∨ (∃ t, clean l = "//" +:+ t) ∨ (∃ t, clean l = "REM " +:+ t).

(** A line that is encoded by [parseScriptLine]: neither passed over nor
    a REPEAT. *)
Definition plain (l : string) : Prop :=
  ¬ skipped l ∧ Py.slice_to 7 (clean l) ≠ "REPEAT ".


(** A text that does not begin with white space. *)
Definition no_lead (s : string) : Prop :=
  match s with
  | String c _ => Ascii.is_space c = false
  | "" => True
  end.

(** The text of a line of a resource file: what is left of it without
    its comment and the white space around. *)
Definition resource_text (l : string) : string :=
  clean (Py.split_head "//" l).

(** The line of a resource file gives the name [k] the value [v]. *)
Definition defines (l k v : string) : Prop :=
  resource_text l ≠ ""
  ∧ ∃ key val, Py.split1 "=" (resource_text l) = [key; val]
               ∧ k = Py.strip key ∧ v = Py.strip val.

(** The line of a resource file has a text without the sign =. *)
Definition malformed (l : string) : Prop :=
  resource_text l ≠ "" ∧ length (Py.split1 "=" (resource_text l)) = 1%nat.

(** Every entry that the language table names for a character and that
    has a value in the tables has a value that denotes a byte. *)
Definition entries_are_bytes (keyProp langProp : gmap string string) : Prop :=
  ∀ c names e v,
    langProp !! DuckEncoder.charName c = Some names →
    e ∈ Py.split "," names →
    table_value keyProp langProp (Py.strip e) = Some v →
    ∃ b, value_byte v b.

(** The code that the last two characters of a name spell in
    hexadecimal. *)
Definition name_code (name : string) : option Z :=
  Py.literal 16 (Py.slice_from (String.length name - 2) name).

(** ** Computations and postconditions *)

Section Monad.
Context {A B : Type}.

Lemma bind_ret_l (a : A) (k : A → M B) : bind (ret a) k = k a.
Proof. unfold bind, ret. by destruct (k a). Qed.

Lemma bind_raise (e : exn) (k : A → M B) : bind (raise e) k = raise e.
Proof. reflexivity. Qed.

Lemma bind_Ret_inv (m : M A) (k : A → M B) w b :
  bind m k = (w, Ret b) →
  ∃ w1 a w2, m = (w1, Ret a) ∧ k a = (w2, Ret b) ∧ w = w1 ++ w2.
Proof.
  destruct m as [w1 [a|e]]; simpl; [|discriminate].
  destruct (k a) as [w2 r] eqn:Hk. intros [= <- ->]. eauto 10.
Qed.

Lemma has_post_bind (m : M A) (k : A → M B) (P : A → Prop) (Q : B → Prop) :
  has_post m P → (∀ a, P a → has_post (k a) Q) → has_post (bind m k) Q.
Proof.
  intros Hm Hk w b (w1 & a & w2 & -> & Hka & ->)%bind_Ret_inv
    [Hq1 Hq2]%Forall_app.
  eapply Hk; eauto.
Qed.

Lemma has_post_ret (a : A) (Q : A → Prop) : Q a → has_post (ret a) Q.
Proof. by intros ? w a' [= _ <-] _. Qed.

Lemma has_post_raise (e : exn) (Q : A → Prop) : has_post (raise e) Q.
Proof. by intros w a. Qed.

Lemma has_post_weaken (m : M A) (P Q : A → Prop) :
  has_post m P → (∀ a, P a → Q a) → has_post m Q.
Proof. intros Hm HPQ w a ??. eapply HPQ, Hm; eauto. Qed.

End Monad.

Lemma has_post_stderr {A} (s : string) (k : unit → M A) (Q : A → Prop) :
  has_post (bind (Py.stderr_write s) k) Q.
Proof.
  intros w a (w1 & [] & w2 & [= <-] & _ & ->)%bind_Ret_inv Hq.
  by inversion Hq.
Qed.

Lemma has_post_print {A} (s : string) (k : unit → M A) (Q : A → Prop) :
  has_post (k tt) Q → has_post (bind (Py.print s) k) Q.
Proof.
  intros Hk. eapply has_post_bind with (P := λ _, True).
  - done.
  - by intros [] _.
Qed.

(** ** Byte strings *)

Lemma length_app (s t : string) :
  String.length (s +:+ t) = (String.length s + String.length t)%nat.
Proof. induction s as [|c s IH]; simpl; [done|]. by rewrite <-IH. Qed.

Lemma app_empty_r (s : string) : s +:+ "" = s.
Proof.
  induction s as [|c s IH]; [done|].
  change (String c (s +:+ "") = String c s). by rewrite IH.
Qed.

Lemma len_one (s : string) : Py.len s = 1 ↔ String.length s = 1%nat.
Proof. unfold Py.len. lia. Qed.

Lemma split_nonempty (sep : ascii) (s : string) : Py.split sep s ≠ [].
Proof.
  induction s as [|c s IH]; simpl; [done|].
  destruct (decide (c = sep)); [done|]. by destruct (Py.split sep s).
Qed.

Lemma length_repeat_str (n : nat) (s : string) :
  String.length (DuckEncoder.repeat_str n s) = (n * String.length s)%nat.
Proof. induction n as [|n IH]; simpl; [done|]. by rewrite length_app, IH. Qed.

Lemma ord_chr (k : Z) : 0 ≤ k < 256 → Py.ord (ascii_of_N (Z.to_N k)) = k.
Proof.
  intros Hk. unfold Py.ord. rewrite N_ascii_embedding by lia. lia.
Qed.

Lemma chr_Ret (k : Z) :
  0 ≤ k < 256 → Py.chr k = ret (String (ascii_of_N (Z.to_N k)) "").
Proof. intros Hk. unfold Py.chr. by rewrite decide_True. Qed.

Lemma has_post_chr (k : Z) :
  has_post (Py.chr k) (λ s, String.length s = 1%nat).
Proof.
  unfold Py.chr. case_decide.
  - by apply has_post_ret.
  - apply has_post_raise.
Qed.

(** ** The delay encoder *)

Section Delay.
Import DuckEncoder.

Lemma repeat_str_concat (n : nat) (s : string) :
  repeat_str n s = String.concat "" (replicate n s).
Proof.
  induction n as [|n IH]; [done|]. cbn [repeat_str replicate].
  rewrite IH. destruct n; [|done]. cbn. by rewrite app_empty_r.
Qed.

Lemma delay2USBBytes_eq (delay : Z) :
  delay2USBBytes delay
  = ([], Ret (repeat_str (Z.to_nat (delay / 255)) full_step
              +:+ last_step (delay mod 255))).
Proof.
  pose proof (Z.mod_pos_bound delay 255 ltac:(lia)).
  unfold delay2USBBytes. rewrite chr_Ret by lia. by rewrite bind_ret_l.
Qed.

Lemma sleep_repeat (n : nat) (tail : string) :
  out2hid_sleep_ms (repeat_str n full_step +:+ tail)
  = 255 * Z.of_nat n + out2hid_sleep_ms tail.
Proof.
  induction n as [|n IH]; [cbn [repeat_str]; change ("" +:+ tail) with tail; lia|].
  cbn [repeat_str].
  change ((full_step +:+ repeat_str n full_step) +:+ tail)
    with (String "000" (String "255" (repeat_str n full_step +:+ tail))).
  cbn [out2hid_sleep_ms]. rewrite IH.
  change (Py.ord "000") with 0. change (Py.ord "255") with 255.
  rewrite decide_True by done. lia.
Qed.
End Delay.

(** C2. For every delay [d >= 0], [delay2USBBytes] returns [d / 255]
    copies of the pair (0x00, 0xFF) followed by the one pair
    (0x00, d mod 255); the payload has [2 * (d / 255 + 1)] bytes; the
    sleeps that [out2hid] makes of it add up to [d]; and the delay 0 is the
    single pair (0x00, 0x00). *)
Theorem delay2USBBytes_spec (d : Z) :
  0 ≤ d →
  ∃ payload,
    DuckEncoder.delay2USBBytes d = ([], Ret payload)
    ∧ payload = String.concat "" (replicate (Z.to_nat (d / 255)) full_step)
                +:+ last_step (d mod 255)
    ∧ Py.len payload = 2 * (d / 255 + 1)
    ∧ DuckEncoder.out2hid_sleep_ms payload = d
    ∧ DuckEncoder.delay2USBBytes 0 = ([], Ret (String "000" (String "000" ""))).
Proof.
  intros Hd. eexists. split; [apply delay2USBBytes_eq|].
  assert (0 ≤ d / 255) by (apply Z.div_pos; lia).
  pose proof (Z.mod_pos_bound d 255 ltac:(lia)) as Hr.
  split_and!; [|..|apply (delay2USBBytes_eq 0)].
  - by rewrite repeat_str_concat.
  - unfold Py.len. rewrite length_app, length_repeat_str. cbn [String.length full_step last_step]. lia.
  - rewrite sleep_repeat. cbn [last_step DuckEncoder.out2hid_sleep_ms].
    change (Py.ord "000") with 0. rewrite decide_True by done.
    rewrite ord_chr by lia. rewrite Z2Nat.id by lia.
    pose proof (Z.div_mod d 255 ltac:(lia)). lia.
Qed.

Lemma delay2USBBytes_spec_witness :
  ∃ payload,
    DuckEncoder.delay2USBBytes 500 = ([], Ret payload)
    ∧ payload = String.concat "" (replicate (Z.to_nat (500 / 255)) full_step)
                +:+ last_step (500 mod 255)
    ∧ Py.len payload = 2 * (500 / 255 + 1)
    ∧ DuckEncoder.out2hid_sleep_ms payload = 500
    ∧ DuckEncoder.delay2USBBytes 0 = ([], Ret (String "000" (String "000" ""))).
Proof. apply (delay2USBBytes_spec 500). lia. Defined.

(** ** Table lookups *)

(** Decisions on closed propositions (comparisons of literal command
    words) are settled by evaluation. *)
Ltac decide_closed :=
  repeat match goal with
  | |- context [@decide ?P ?i] =>
      let r := eval vm_compute in (@bool_decide P i) in
      lazymatch r with
      | true =>
          rewrite (@decide_True _ P i)
            by (apply (bool_decide_eq_true_1 P); vm_compute; reflexivity)
      | false =>
          rewrite (@decide_False _ P i)
            by (apply (bool_decide_eq_false_1 P); vm_compute; reflexivity)
      end
  end.

Ltac is_keyword := apply (bool_decide_unpack _); vm_compute; exact I.

Section Lookups.
Import DuckEncoder.
Variables keyProp langProp : gmap string string.

Lemma assign_keyval_table (k : string) (keyval : local) :
  assign_keyval k keyProp langProp keyval
  = match table_value keyProp langProp k with
    | Some v => Some (Some v)
    | None => keyval
    end.
Proof.
  unfold assign_keyval, table_value.
  by destruct (keyProp !! k), (langProp !! k).
Qed.

Lemma keyval2chr_byte (v : string) (b : ascii) :
  value_byte v b → keyval2chr v = ret (String b "").
Proof.
  intros (k & Hlit & Hk & ->). unfold keyval2chr, Py.int.
  case_decide; rewrite Hlit, bind_ret_l; by apply chr_Ret.
Qed.

Lemma has_post_keyval2chr (v : string) :
  has_post (keyval2chr v) (λ s, String.length s = 1%nat).
Proof.
  unfold keyval2chr.
  eapply has_post_bind with (P := λ _, True); [done|].
  intros k _. apply has_post_chr.
Qed.

Lemma prop2USBByte_entry (prop : string) (b : ascii) :
  entry_byte keyProp langProp prop b →
  prop2USBByte prop keyProp langProp = ret (String b "").
Proof.
  intros (v & Hv & Hb). unfold prop2USBByte.
  rewrite assign_keyval_table, Hv. cbn [read]. rewrite bind_ret_l.
  by apply keyval2chr_byte.
Qed.

Lemma prop2USBByte_absent (prop : string) :
  table_value keyProp langProp prop = None →
  prop2USBByte prop keyProp langProp = raise UnboundLocalError.
Proof.
  intros Hv. unfold prop2USBByte. by rewrite assign_keyval_table, Hv.
Qed.

Lemma has_post_prop2USBByte (prop : string) :
  has_post (prop2USBByte prop keyProp langProp) (λ s, String.length s = 1%nat).
Proof.
  unfold prop2USBByte. rewrite assign_keyval_table.
  destruct (table_value keyProp langProp prop) as [v|]; cbn [read].
  - rewrite bind_ret_l. apply has_post_keyval2chr.
  - apply has_post_raise.
Qed.
End Lookups.

(** ** Lines *)

Section Lines.
Import DuckEncoder.
Variables keyProp langProp : gmap string string.

(** A line whose first word is no command is encoded as a key name
    followed by a zero modifier. *)
Lemma parseScriptLine_bare (line : string) :
  cmd_of line ∉ keywords →
  parseScriptLine line keyProp langProp
  = (key <- keyInstr2USBBytes (cmd_of line) keyProp langProp ;;
     ret (key +:+ x00)).
Proof.
  unfold cmd_of, parseScriptLine.
  destruct (Py.partition " " line) as [[cmd sep] args]. cbn [fst snd].
  generalize (Py.strip cmd). clear. intros cmd Hcmd.
  repeat match goal with
  | |- context [decide (cmd = ?k)] =>
      destruct (decide (cmd = k)) as [->|?]; [by destruct Hcmd; is_keyword|]
  | |- context [decide (cmd ∈ ?l)] =>
      destruct (decide (cmd ∈ l)) as [Hin|?];
      [destruct Hcmd;
       repeat (apply elem_of_cons in Hin as [->|Hin]; [by is_keyword|]);
       by apply elem_of_nil in Hin|]
  end.
  done.
Qed.

Lemma strip_one (c : ascii) :
  Ascii.is_space c = false → Py.strip (String c "") = String c "".
Proof.
  intros Hc. unfold Py.strip, Py.rstrip. cbn [Py.lstrip]. rewrite Hc.
  change (String.rev (String c "")) with (String c ""). cbn [Py.lstrip].
  by rewrite Hc.
Qed.

Lemma cmd_of_one (c : ascii) :
  Ascii.is_space c = false → cmd_of (String c "") = String c "".
Proof.
  intros Hc. unfold cmd_of. cbn [Py.partition].
  rewrite decide_False by (by intros ->). cbn [fst]. by apply strip_one.
Qed.

Lemma one_not_keyword (c : ascii) : String c "" ∉ keywords.
Proof.
  unfold keywords. intros Hin.
  repeat (apply elem_of_cons in Hin as [?|Hin]; [discriminate|]).
  by apply elem_of_nil in Hin.
Qed.
End Lines.

(** C4. With any tables (so also with tables that hold KEY_LEFT_CTRL,
    KEY_LEFT_ALT and KEY_LEFT_SHIFT), a CTRL, CONTROL, ALT or SHIFT line
    without argument does not encode to two bytes: [prop2USBByte] is
    called with one argument instead of three, and the line raises
    TypeError. *)
Theorem modifier_alone_raises (keyProp langProp : gmap string string) :
  DuckEncoder.parseScriptLine "CTRL" keyProp langProp = ([], Raise TypeError)
  ∧ DuckEncoder.parseScriptLine "CONTROL" keyProp langProp = ([], Raise TypeError)
  ∧ DuckEncoder.parseScriptLine "ALT" keyProp langProp = ([], Raise TypeError)
  ∧ DuckEncoder.parseScriptLine "SHIFT" keyProp langProp = ([], Raise TypeError)
  ∧ DuckEncoder.parseScript "CTRL" sample_keyboard sample_language
    = ([], Raise TypeError).
Proof. split_and!; reflexivity. Qed.

(** C5. For a name that is in neither table, [prop2USBByte] does not
    return an empty result: its variable [keyval] was never assigned, and
    reading it raises UnboundLocalError before any diagnostic is printed. *)
Theorem prop2USBByte_absent_raises (prop : string)
    (keyProp langProp : gmap string string) :
  keyProp !! prop = None → langProp !! prop = None →
  DuckEncoder.prop2USBByte prop keyProp langProp = ([], Raise UnboundLocalError).
Proof.
  intros Hk Hl. apply prop2USBByte_absent. unfold table_value. by rewrite Hk.
Qed.

Lemma prop2USBByte_absent_raises_witness :
  DuckEncoder.prop2USBByte "MODIFIERKEY_CTRL" ∅ sample_language
  = ([], Raise UnboundLocalError).
Proof. by apply prop2USBByte_absent_raises. Defined.

(** C6. A line made of one character that the language table does not
    cover makes the encoder raise: [ASCIIChar2USBBytes] prints its notice
    and returns the empty string, and [keyInstr2USBBytes] takes the first
    character of that. *)
Theorem unknown_char_line_raises (c : ascii)
    (keyProp langProp : gmap string string) :
  Ascii.is_space c = false →
  langProp !! DuckEncoder.charName c = None →
  ∃ w, DuckEncoder.parseScriptLine (String c "") keyProp langProp
       = (w, Raise IndexError)
       ∧ quiet w ∧ w ≠ [].
Proof.
  intros Hc Hlp. rewrite parseScriptLine_bare
    by (rewrite cmd_of_one by done; apply one_not_keyword).
  rewrite cmd_of_one by done. unfold DuckEncoder.keyInstr2USBBytes.
  decide_closed. unfold DuckEncoder.ASCIIChar2USBBytes. rewrite Hlp.
  eexists. split; [reflexivity|]. split; [|done].
  by repeat constructor.
Qed.

Lemma unknown_char_line_raises_witness :
  ∃ w, DuckEncoder.parseScriptLine "a" ∅ ∅ = (w, Raise IndexError)
       ∧ quiet w ∧ w ≠ [].
Proof. by apply (unknown_char_line_raises "a" ∅ ∅). Defined.

(** ** ALT-TAB *)

(** An entry of a concrete table, by evaluation. *)
Ltac entry_by_eval :=
  eexists; split; [vm_compute; reflexivity|];
  eexists; split_and!; [vm_compute; reflexivity|lia|lia|vm_compute; reflexivity].

(** C9. An ALT-TAB line with a non-empty argument encodes to no bytes;
    without argument, and with KEY_TAB and MODIFIERKEY_LEFT_ALT in the
    tables, it encodes to the KEY_TAB byte followed by the
    MODIFIERKEY_LEFT_ALT byte. *)
Theorem alt_tab_spec (keyProp langProp : gmap string string) :
  (∀ line, cmd_of line = "ALT-TAB" → args_of line ≠ "" →
     DuckEncoder.parseScriptLine line keyProp langProp = ([], Ret ""))
  ∧ (∀ line k m, cmd_of line = "ALT-TAB" → args_of line = "" →
       entry_byte keyProp langProp "KEY_TAB" k →
       entry_byte keyProp langProp "MODIFIERKEY_LEFT_ALT" m →
       DuckEncoder.parseScriptLine line keyProp langProp
       = ([], Ret (String k (String m "")))).
Proof.
  split.
  - intros line. unfold cmd_of, args_of, DuckEncoder.parseScriptLine.
    destruct (Py.partition " " line) as [[cmd sep] args]. cbn [fst snd].
    intros -> Ha. decide_closed. by rewrite decide_True.
  - intros line k m. unfold cmd_of, args_of, DuckEncoder.parseScriptLine.
    destruct (Py.partition " " line) as [[cmd sep] args]. cbn [fst snd].
    intros -> -> Hk Hm. decide_closed.
    rewrite (prop2USBByte_entry _ _ _ _ Hk), bind_ret_l.
    by rewrite (prop2USBByte_entry _ _ _ _ Hm), bind_ret_l.
Qed.

Lemma alt_tab_spec_witness :
  DuckEncoder.parseScriptLine "ALT-TAB x" sample_keyboard sample_language
  = ([], Ret "")
  ∧ DuckEncoder.parseScriptLine "ALT-TAB" sample_keyboard sample_language
    = ([], Ret (String "043" (String "004" ""))).
Proof.
  destruct (alt_tab_spec sample_keyboard sample_language) as [Harg Hnone].
  split.
  - by apply Harg.
  - apply Hnone; [done|done|entry_by_eval..].
Defined.

(** ** Malformed numbers *)

Section Numbers.
Import DuckEncoder.
Variables keyProp langProp : gmap string string.

Lemma slice_to_from (n : nat) (s : string) :
  Py.slice_to n s +:+ Py.slice_from n s = s.
Proof.
  revert s. induction n as [|n IH]; intros [|c s]; try done.
  cbn [Py.slice_to Py.slice_from].
  change (String c (Py.slice_to n s +:+ Py.slice_from n s) = String c s).
  by rewrite IH.
Qed.

(** A line that starts with the seven characters of "REPEAT " is not
    passed over as blank or comment. *)
Lemma repeat_not_skipped (l : string) :
  Py.slice_to 7 l = "REPEAT " →
  bool_decide (Py.len l = 0) || Py.startswith "//" l || Py.startswith "REM " l
  = false.
Proof.
  intros Hl. rewrite <-(slice_to_from 7 l), Hl.
  generalize (Py.slice_from 7 l). intros rest.
  change ("REPEAT " +:+ rest)
    with (String "R" (String "E" (String "P" ("EAT " +:+ rest)))).
  rewrite bool_decide_eq_false_2; [done|]. unfold Py.len. cbn. lia.
Qed.

(** What a REPEAT line with a count and a recorded line does: the
    recorded line is encoded [n] times, and the REPEAT line itself is
    recorded. *)
Lemma parseScript_step_repeat (l result last r count : string) :
  Py.slice_to 7 (clean l) = "REPEAT " →
  Py.split1 " " (clean l) = [r; count] →
  parseScript_step keyProp langProp (result, Some last) l
  = (n <- Py.int 10 (Py.strip count) ;;
     result <- repeat_line (Py.range n) last keyProp langProp result ;;
     ret (result, Some (clean l))).
Proof.
  intros Hl Hs. unfold parseScript_step. fold (clean l).
  rewrite (repeat_not_skipped _ Hl). rewrite decide_True by done.
  by rewrite Hs.
Qed.

Lemma parseScript_loop_raise (lines : list string) st l w e :
  parseScript_step keyProp langProp st l = (w, Raise e) →
  parseScript_loop keyProp langProp (l :: lines) st = (w, Raise e).
Proof. intros H. cbn [parseScript_loop]. by rewrite H. Qed.
End Numbers.

(** C10. A number that cannot be read raises ValueError: a DELAY line
    whose argument is no decimal integer (an absent argument included), a
    STRING_DELAY line whose argument is a single token, and a REPEAT line
    after a recorded line whose count is no decimal integer.  The
    exception leaves the loop of [parseScript]: the script yields no
    payload, as for the three sample scripts. *)
Theorem malformed_number_raises (keyProp langProp : gmap string string) :
  (∀ line, cmd_of line = "DELAY" → Py.literal 10 (args_of line) = None →
     DuckEncoder.parseScriptLine line keyProp langProp = ([], Raise ValueError))
  ∧ (∀ line, cmd_of line = "STRING_DELAY" → args_of line ≠ "" →
       length (Py.split1 " " (args_of line)) = 1%nat →
       DuckEncoder.parseScriptLine line keyProp langProp = ([], Raise ValueError))
  ∧ (∀ l result last r count,
       Py.slice_to 7 (clean l) = "REPEAT " →
       Py.split1 " " (clean l) = [r; count] →
       Py.literal 10 (Py.strip count) = None →
       DuckEncoder.parseScript_step keyProp langProp (result, Some last) l
       = ([], Raise ValueError))
  ∧ (∀ lines st l w e,
       DuckEncoder.parseScript_step keyProp langProp st l = (w, Raise e) →
       DuckEncoder.parseScript_loop keyProp langProp (l :: lines) st
       = (w, Raise e))
  ∧ DuckEncoder.parseScript ("STRING A" +:+ Py.nl +:+ "DELAY" +:+ Py.nl +:+ "STRING A")
      sample_keyboard sample_language = ([], Raise ValueError)
  ∧ DuckEncoder.parseScript ("STRING A" +:+ Py.nl +:+ "STRING_DELAY 5")
      sample_keyboard sample_language = ([], Raise ValueError)
  ∧ DuckEncoder.parseScript ("STRING A" +:+ Py.nl +:+ "REPEAT twice")
      sample_keyboard sample_language = ([], Raise ValueError).
Proof.
  split_and!; [| | | |vm_compute; reflexivity..].
  - intros line. unfold cmd_of, args_of, DuckEncoder.parseScriptLine.
    destruct (Py.partition " " line) as [[cmd sep] args]. cbn [fst snd].
    intros -> Hlit. decide_closed. unfold Py.int. by rewrite Hlit.
  - intros line. unfold cmd_of, args_of, DuckEncoder.parseScriptLine.
    destruct (Py.partition " " line) as [[cmd sep] args]. cbn [fst snd].
    intros -> Ha Hlen. decide_closed. rewrite decide_False by done.
    by destruct (Py.split1 " " (Py.strip args)) as [|a [|b [|]]].
  - intros l result last r count Hl Hs Hlit.
    rewrite (parseScript_step_repeat _ _ _ _ _ _ _ Hl Hs).
    unfold Py.int. by rewrite Hlit.
  - intros lines st l w e. apply parseScript_loop_raise.
Qed.

Lemma malformed_number_raises_witness :
  DuckEncoder.parseScriptLine "DELAY soon" sample_keyboard sample_language
  = ([], Raise ValueError)
  ∧ DuckEncoder.parseScriptLine "DELAY" sample_keyboard sample_language
    = ([], Raise ValueError)
  ∧ DuckEncoder.parseScriptLine "STRING_DELAY 5" sample_keyboard sample_language
    = ([], Raise ValueError)
  ∧ DuckEncoder.parseScript_step sample_keyboard sample_language
      ("", Some "STRING A") "REPEAT twice"
    = ([], Raise ValueError).
Proof.
  destruct (malformed_number_raises sample_keyboard sample_language)
    as (Hdelay & Hsd & Hrep & _).
  split_and!.
  - by apply Hdelay.
  - by apply Hdelay.
  - by apply Hsd.
  - by apply (Hrep _ _ _ "REPEAT" "twice").
Defined.

(** ** REPEAT *)

(** C3. With the sample tables, STRING A encodes to the pair (0x04, 0x02)
    and STRING A followed by REPEAT 2 to three such pairs.  But a REPEAT
    line that ran is itself recorded as the last line: after STRING A and
    REPEAT 1, a second REPEAT 1 encodes the line REPEAT 1 as a key named
    REPEAT, so the payload is two pairs and a lone zero byte, not three
    pairs.  A line REPEAT without count is encoded as that key too, and
    gives one byte. *)
Theorem repeat_records_itself :
  DuckEncoder.parseScriptLine "STRING A" sample_keyboard sample_language
  = ([], Ret (String "004" (String "002" "")))
  ∧ DuckEncoder.parseScript ("STRING A" +:+ Py.nl +:+ "REPEAT 2")
      sample_keyboard sample_language
    = ([], Ret (String "004" (String "002" (String "004" (String "002"
              (String "004" (String "002" "")))))))
  ∧ DuckEncoder.parseScript
      ("STRING A" +:+ Py.nl +:+ "REPEAT 1" +:+ Py.nl +:+ "REPEAT 1")
      sample_keyboard sample_language
    = ([(Stderr, "Error: No keycode entry for KEY_REPEAT" +:+ Py.nl);
        (Stderr, "Warning this could corrupt generated output file" +:+ Py.nl)],
       Ret (String "004" (String "002" (String "004" (String "002"
              (String "000" ""))))))
  ∧ DuckEncoder.parseScript "REPEAT" sample_keyboard sample_language
    = ([(Stderr, "Error: No keycode entry for KEY_REPEAT" +:+ Py.nl);
        (Stderr, "Warning this could corrupt generated output file" +:+ Py.nl)],
       Ret (String "000" ""))
  ∧ DuckEncoder.parseScript "REPEAT 2" sample_keyboard sample_language
    = ([], Ret "").
Proof. split_and!; vm_compute; reflexivity. Qed.

(** ** Characters *)

Section Characters.
Import DuckEncoder.
Variables keyProp langProp : gmap string string.

Lemma app_assoc (s t u : string) : (s +:+ t) +:+ u = s +:+ (t +:+ u).
Proof.
  induction s as [|c s IH]; [done|].
  change (String c ((s +:+ t) +:+ u) = String c (s +:+ (t +:+ u))).
  by rewrite IH.
Qed.

Lemma charName_hex2 (char : ascii) :
  charName char
  = (if decide (Py.ord char < 128) then "ASCII_" else "ISO_8859_1_")
    +:+ hex2 (Py.ord char).
Proof. destruct char as [[] [] [] [] [] [] [] []]; vm_compute; reflexivity. Qed.

(** The loop over entries that all stand for a byte appends these
    bytes, in order. *)
Lemma entries_loop_bytes (entries : list string) (bytes : list ascii)
    (result : string) :
  Forall2 (λ e b, entry_byte keyProp langProp (Py.strip e) b) entries bytes →
  entries_loop keyProp langProp entries result
  = ret (Next (result +:+ string_of_list_ascii bytes)).
Proof.
  intros H. revert result.
  induction H as [|e b es bs (v & Hv & Hb) _ IH]; intros result.
  - cbn [entries_loop string_of_list_ascii]. by rewrite app_empty_r.
  - cbn [entries_loop string_of_list_ascii].
    rewrite assign_keyval_table, Hv, (keyval2chr_byte _ _ Hb), bind_ret_l.
    rewrite IH. by rewrite app_assoc.
Qed.

(** The loop ends with one more byte per entry, or with the empty
    result of [return]. *)
Lemma has_post_entries_loop (entries : list string) (result : string) :
  has_post (entries_loop keyProp langProp entries result)
    (λ f, match f with
          | Next r => String.length r
                      = (String.length result + length entries)%nat
          | Return v => v = ""
          end).
Proof.
  revert result. induction entries as [|e es IH]; intros result.
  - apply has_post_ret. cbn [length]. lia.
  - cbn [entries_loop]. rewrite assign_keyval_table.
    destruct (table_value keyProp langProp (Py.strip e)) as [v|].
    + eapply has_post_bind; [apply has_post_keyval2chr|].
      intros c Hc. eapply has_post_weaken; [apply IH|].
      intros [r|r]; [|done]. rewrite length_app, Hc. cbn [length]. lia.
    + do 2 apply has_post_print. by apply has_post_ret.
Qed.

Lemma has_post_ASCIIChar2USBBytes (char : ascii) :
  two_names_at_most langProp →
  has_post (ASCIIChar2USBBytes char keyProp langProp)
    (λ s, String.length s = 0%nat ∨ String.length s = 2%nat).
Proof.
  intros Htwo. unfold ASCIIChar2USBBytes.
  destruct (langProp !! charName char) as [names|] eqn:Hnames.
  - eapply has_post_bind; [apply has_post_entries_loop|].
    intros [r|v]; cbn [String.length].
    + intros Hr. specialize (Htwo _ _ Hnames).
      pose proof (split_nonempty "," names) as Hne.
      destruct (Py.split "," names) as [|e1 [|e2 es]]; [done|..];
        cbn [length] in Htwo, Hr.
      * rewrite decide_True by (apply len_one; lia).
        apply has_post_ret. rewrite length_app. cbn. lia.
      * rewrite decide_False by (rewrite len_one; lia).
        apply has_post_ret. lia.
    + intros ->. apply has_post_ret. by left.
  - apply has_post_print. apply has_post_ret. by left.
Qed.
End Characters.

(** C7. [ASCIIChar2USBBytes] looks a character up under the name ASCII_
    or, from 0x80 on, ISO_8859_1_, followed by the two upper-case
    hexadecimal digits of its code.  With no such name in the language
    table it prints a notice and returns the empty string, and a STRING
    line goes on with its next character.  With the name in the table and
    every entry of its comma-separated value standing for a byte (keyboard
    table first, then language table), it returns these bytes, and after a
    single byte the zero modifier. *)
Theorem ASCIIChar2USBBytes_spec (char : ascii)
    (keyProp langProp : gmap string string) :
  DuckEncoder.charName char
  = (if decide (Py.ord char < 128) then "ASCII_" else "ISO_8859_1_")
    +:+ hex2 (Py.ord char)
  ∧ (langProp !! DuckEncoder.charName char = None →
     ∃ w, DuckEncoder.ASCIIChar2USBBytes char keyProp langProp = (w, Ret "")
          ∧ quiet w ∧ w ≠ [])
  ∧ (∀ names bytes,
       langProp !! DuckEncoder.charName char = Some names →
       Forall2 (λ e b, entry_byte keyProp langProp (Py.strip e) b)
         (Py.split "," names) bytes →
       DuckEncoder.ASCIIChar2USBBytes char keyProp langProp
       = ([], Ret (match bytes with
                   | [k] => String k (String "000" "")
                   | _ => string_of_list_ascii bytes
                   end)))
  ∧ (∃ w, DuckEncoder.parseScriptLine "STRING bA" sample_keyboard sample_language
          = (w, Ret (String "004" (String "002" ""))) ∧ quiet w ∧ w ≠ []).
Proof.
  split_and!.
  - apply charName_hex2.
  - intros Hlp. unfold DuckEncoder.ASCIIChar2USBBytes. rewrite Hlp.
    eexists. split; [reflexivity|]. split; [|done]. by repeat constructor.
  - intros names bytes Hlp Hbytes. unfold DuckEncoder.ASCIIChar2USBBytes.
    rewrite Hlp, (entries_loop_bytes _ _ _ _ _ Hbytes), bind_ret_l.
    change ("" +:+ string_of_list_ascii bytes) with (string_of_list_ascii bytes).
    destruct bytes as [|k [|k2 bytes]]; cbn [string_of_list_ascii].
    + by rewrite decide_False.
    + by rewrite decide_True.
    + rewrite decide_False; [done|]. unfold Py.len. cbn [String.length]. lia.
  - eexists. split; [vm_compute; reflexivity|]. split; [|done].
    by repeat constructor.
Qed.

Lemma ASCIIChar2USBBytes_spec_witness :
  DuckEncoder.charName "A" = "ASCII_41"
  ∧ (∃ w, DuckEncoder.ASCIIChar2USBBytes "b" sample_keyboard sample_language
          = (w, Ret "") ∧ quiet w ∧ w ≠ [])
  ∧ DuckEncoder.ASCIIChar2USBBytes "A" sample_keyboard sample_language
    = ([], Ret (String "004" (String "002" "")))
  ∧ DuckEncoder.ASCIIChar2USBBytes "a" sample_keyboard sample_language
    = ([], Ret (String "004" (String "000" ""))).
Proof.
  split_and!.
  - apply (ASCIIChar2USBBytes_spec "A" ∅ ∅).
  - by apply (ASCIIChar2USBBytes_spec "b" sample_keyboard sample_language).
  - apply (ASCIIChar2USBBytes_spec "A" sample_keyboard sample_language)
      with (names := "KEY_A, MODIFIERKEY_SHIFT") (bytes := ["004"; "002"]%char);
      [done|]. repeat constructor; entry_by_eval.
  - apply (ASCIIChar2USBBytes_spec "a" sample_keyboard sample_language)
      with (names := "KEY_A") (bytes := ["004"]%char);
      [done|]. repeat constructor; entry_by_eval.
Defined.

(** ** Named keys *)

Section NamedKeys.
Import DuckEncoder.
Variables keyProp langProp : gmap string string.

Lemma aliases_keys_NoDup : NoDup aliases.*1.
Proof. apply (bool_decide_unpack _). vm_compute. exact I. Qed.

Lemma aliases_values_plain :
  Forall (λ p : string * string, Py.strip p.2 = p.2 ∧ p.2 ≠ "") aliases.
Proof. apply (bool_decide_unpack _). vm_compute. exact I. Qed.

Lemma aliases_get_Some (k a : string) :
  aliases_get k = Some a ↔ (k, a) ∈ aliases.
Proof.
  unfold aliases_get. symmetry.
  apply elem_of_list_to_map, aliases_keys_NoDup.
Qed.

Lemma aliases_get_None (k : string) :
  aliases_get k = None ↔ ∀ a, (k, a) ∉ aliases.
Proof.
  split.
  - intros Hk a Ha%aliases_get_Some. congruence.
  - intros Hk. destruct (aliases_get k) as [a|] eqn:Ha; [|done].
    by apply aliases_get_Some, Hk in Ha.
Qed.

(** The three ways a key name of length other than one is resolved. *)
Lemma keyInstr2USBBytes_first (keyinstr v : string) :
  String.length keyinstr ≠ 1%nat →
  table_value keyProp langProp ("KEY_" +:+ Py.strip keyinstr) = Some v →
  keyInstr2USBBytes keyinstr keyProp langProp = keyval2chr v.
Proof.
  intros Hlen Hv. unfold keyInstr2USBBytes.
  rewrite decide_False by (by rewrite len_one).
  by rewrite assign_keyval_table, Hv.
Qed.

Lemma keyInstr2USBBytes_second (keyinstr a : string) :
  String.length keyinstr ≠ 1%nat →
  table_value keyProp langProp ("KEY_" +:+ Py.strip keyinstr) = None →
  (Py.upper (Py.strip keyinstr), a) ∈ aliases →
  keyInstr2USBBytes keyinstr keyProp langProp
  = match table_value keyProp langProp ("KEY_" +:+ a) with
    | Some v => keyval2chr v
    | None =>
        Py.stderr_write ("Error: No keycode entry for " +:+ ("KEY_" +:+ a) +:+ Py.nl) ;;;
        Py.stderr_write ("Warning this could corrupt generated output file" +:+ Py.nl) ;;;
        ret ""
    end.
Proof.
  intros Hlen Hv Ha. unfold keyInstr2USBBytes.
  rewrite decide_False by (by rewrite len_one).
  rewrite assign_keyval_table, Hv.
  pose proof aliases_values_plain as Hplain.
  rewrite Forall_forall in Hplain. destruct (Hplain _ Ha) as [Hstrip Hne].
  apply aliases_get_Some in Ha. rewrite Ha.
  cbn [snd] in Hstrip, Hne. rewrite decide_False by done.
  rewrite Hstrip, assign_keyval_table.
  by destruct (table_value keyProp langProp ("KEY_" +:+ a)).
Qed.

Lemma keyInstr2USBBytes_unknown (keyinstr : string) :
  String.length keyinstr ≠ 1%nat →
  table_value keyProp langProp ("KEY_" +:+ Py.strip keyinstr) = None →
  (∀ a, (Py.upper (Py.strip keyinstr), a) ∉ aliases) →
  keyInstr2USBBytes keyinstr keyProp langProp
  = (Py.stderr_write ("Error: No keycode entry for "
                      +:+ ("KEY_" +:+ Py.strip keyinstr) +:+ Py.nl) ;;;
     Py.stderr_write ("Warning this could corrupt generated output file" +:+ Py.nl) ;;;
     ret "").
Proof.
  intros Hlen Hv Ha%aliases_get_None. unfold keyInstr2USBBytes.
  rewrite decide_False by (by rewrite len_one).
  by rewrite assign_keyval_table, Hv, Ha.
Qed.

Lemma complains_twice (s t : string) :
  ∃ w, (Py.stderr_write s ;;; Py.stderr_write t ;;; ret "") = (w, Ret "")
       ∧ complains w.
Proof.
  eexists. split; [reflexivity|]. split; [done|]. by repeat constructor.
Qed.

Lemma has_post_keyInstr2USBBytes (keyinstr : string) :
  two_names_at_most langProp →
  has_post (keyInstr2USBBytes keyinstr keyProp langProp)
    (λ s, String.length s = 1%nat).
Proof.
  intros Htwo. unfold keyInstr2USBBytes. case_decide as Hlen.
  - destruct keyinstr as [|c rest]; [apply has_post_raise|].
    eapply has_post_bind; [by apply has_post_ASCIIChar2USBBytes|].
    intros [|k s]; cbn [String.length].
    + intros _. apply has_post_raise.
    + intros _. by apply has_post_ret.
  - rewrite assign_keyval_table.
    destruct (table_value keyProp langProp ("KEY_" +:+ Py.strip keyinstr))
      as [v|]; [apply has_post_keyval2chr|].
    destruct (aliases_get (Py.upper (Py.strip keyinstr))) as [a|];
      [|apply has_post_stderr].
    case_decide; [apply has_post_stderr|].
    rewrite assign_keyval_table.
    destruct (table_value keyProp langProp ("KEY_" +:+ Py.strip a));
      [apply has_post_keyval2chr|apply has_post_stderr].
Qed.
End NamedKeys.

(** The alias table of [keyInstr2USBBytes] does not have 19 entries: it
    has 20, under 20 different names. *)
Lemma aliases_not_19 :
  length DuckEncoder.aliases ≠ 19%nat
  ∧ length DuckEncoder.aliases = 20%nat
  ∧ NoDup DuckEncoder.aliases.*1.
Proof. split_and!; [done|done|apply aliases_keys_NoDup]. Qed.

(** C8, amended. A key instruction whose length is not one is looked up,
    trimmed and prefixed with KEY_, in the keyboard table and then in the
    language table.  On a miss its upper-cased trimmed name is looked up in
    the alias table, which has 20 entries, and the alias is looked up once
    in the same way.  If that misses too, or if there is no alias, two
    lines go to standard error and the result is the empty string. *)
Theorem keyInstr2USBBytes_named (keyinstr : string)
    (keyProp langProp : gmap string string) :
  String.length keyinstr ≠ 1%nat →
  length DuckEncoder.aliases = 20%nat
  ∧ (∀ v b,
       table_value keyProp langProp ("KEY_" +:+ Py.strip keyinstr) = Some v →
       value_byte v b →
       DuckEncoder.keyInstr2USBBytes keyinstr keyProp langProp
       = ([], Ret (String b "")))
  ∧ (∀ a v b,
       table_value keyProp langProp ("KEY_" +:+ Py.strip keyinstr) = None →
       (Py.upper (Py.strip keyinstr), a) ∈ DuckEncoder.aliases →
       table_value keyProp langProp ("KEY_" +:+ a) = Some v →
       value_byte v b →
       DuckEncoder.keyInstr2USBBytes keyinstr keyProp langProp
       = ([], Ret (String b "")))
  ∧ (∀ a,
       table_value keyProp langProp ("KEY_" +:+ Py.strip keyinstr) = None →
       (Py.upper (Py.strip keyinstr), a) ∈ DuckEncoder.aliases →
       table_value keyProp langProp ("KEY_" +:+ a) = None →
       ∃ w, DuckEncoder.keyInstr2USBBytes keyinstr keyProp langProp = (w, Ret "")
            ∧ complains w)
  ∧ (table_value keyProp langProp ("KEY_" +:+ Py.strip keyinstr) = None →
     (∀ a, (Py.upper (Py.strip keyinstr), a) ∉ DuckEncoder.aliases) →
     ∃ w, DuckEncoder.keyInstr2USBBytes keyinstr keyProp langProp = (w, Ret "")
          ∧ complains w).
Proof.
  intros Hlen. split_and!.
  - done.
  - intros v b Hv Hb. rewrite (keyInstr2USBBytes_first _ _ _ _ Hlen Hv).
    by apply keyval2chr_byte.
  - intros a v b Hmiss Ha Hv Hb.
    rewrite (keyInstr2USBBytes_second _ _ _ _ Hlen Hmiss Ha), Hv.
    by apply keyval2chr_byte.
  - intros a Hmiss Ha Hv.
    rewrite (keyInstr2USBBytes_second _ _ _ _ Hlen Hmiss Ha), Hv.
    apply complains_twice.
  - intros Hmiss Ha.
    rewrite (keyInstr2USBBytes_unknown _ _ _ Hlen Hmiss Ha).
    apply complains_twice.
Qed.

Lemma keyInstr2USBBytes_named_witness :
  DuckEncoder.keyInstr2USBBytes "RETURN" sample_keyboard sample_language
  = ([], Ret (String "040" ""))
  ∧ (∃ w, DuckEncoder.keyInstr2USBBytes "BREAK" sample_keyboard sample_language
          = (w, Ret "") ∧ complains w)
  ∧ (∃ w, DuckEncoder.keyInstr2USBBytes "SOMETHINGBOGUS" sample_keyboard
            sample_language = (w, Ret "") ∧ complains w).
Proof.
  split_and!.
  - apply (keyInstr2USBBytes_named "RETURN" sample_keyboard sample_language)
      with (a := "ENTER") (v := "40"); [done|done| |done|].
    + apply (bool_decide_unpack _). vm_compute. exact I.
    + eexists. split_and!; [vm_compute; reflexivity|lia|lia|done].
  - apply (keyInstr2USBBytes_named "BREAK" sample_keyboard sample_language)
      with (a := "PAUSE"); [done|done| |done].
    apply (bool_decide_unpack _). vm_compute. exact I.
  - apply (keyInstr2USBBytes_named "SOMETHINGBOGUS" sample_keyboard
             sample_language); [done|done|].
    intros a Ha. apply (list_elem_of_fmap_2 fst) in Ha. revert Ha.
    apply (bool_decide_unpack _). vm_compute. exact I.
Defined.

(** ** Pair alignment of the payload *)

Section Alignment.
Import DuckEncoder.
Variables keyProp langProp : gmap string string.
Hypothesis Htwo : two_names_at_most langProp.

Lemma pair_aligned_empty : pair_aligned "".
Proof. by exists 0%nat. Qed.

Lemma pair_aligned_app (s t : string) :
  pair_aligned s → pair_aligned t → pair_aligned (s +:+ t).
Proof.
  unfold pair_aligned. intros [m Hm] [n Hn]. exists (m + n)%nat.
  rewrite length_app. lia.
Qed.

Lemma pair_aligned_two (s t : string) :
  String.length s = 1%nat → String.length t = 1%nat → pair_aligned (s +:+ t).
Proof. intros Hs Ht. exists 1%nat. rewrite length_app. lia. Qed.

Lemma pair_aligned_0_2 (s : string) :
  String.length s = 0%nat ∨ String.length s = 2%nat → pair_aligned s.
Proof. intros [H|H]; [exists 0%nat|exists 1%nat]; lia. Qed.

Lemma has_post_delay2USBBytes (delay : Z) :
  has_post (delay2USBBytes delay) pair_aligned.
Proof.
  rewrite delay2USBBytes_eq. apply has_post_ret.
  exists (S (Z.to_nat (delay / 255))).
  rewrite length_app, length_repeat_str. cbn [String.length full_step last_step].
  lia.
Qed.

Lemma has_post_modifier_or (p q : string) :
  has_post (modifier_or p q keyProp langProp) (λ s, String.length s = 1%nat).
Proof.
  unfold modifier_or.
  repeat (eapply has_post_bind with (P := λ _, True); [done|]; intros ? _).
  apply has_post_chr.
Qed.

(** The loops of STRING and STRING_DELAY keep the payload aligned. *)
Lemma has_post_for_chars (s : string) (body : ascii → string → M string)
    (result : string) :
  (∀ c r, pair_aligned r → has_post (body c r) pair_aligned) →
  pair_aligned result →
  has_post (for_chars s body result) pair_aligned.
Proof.
  intros Hbody. revert result.
  induction s as [|c s IH]; intros result Hres; cbn [for_chars].
  - by apply has_post_ret.
  - eapply has_post_bind; [by apply Hbody|]. apply IH.
Qed.

(** A key and then a modifier: two bytes. *)
Ltac key_then_modifier :=
  eapply has_post_bind;
    [first [by apply has_post_keyInstr2USBBytes | apply has_post_prop2USBByte]|];
  intros ? ?;
  first
    [ eapply has_post_bind;
        [first [apply has_post_prop2USBByte | apply has_post_modifier_or]|];
      intros ? ?; apply has_post_ret
    | apply has_post_ret ];
  repeat change ("" +:+ ?s) with s;
  by apply pair_aligned_two.

Lemma has_post_parseScriptLine (line : string) :
  has_post (parseScriptLine line keyProp langProp) pair_aligned.
Proof.
  unfold parseScriptLine.
  destruct (Py.partition " " line) as [[cmd sep] args].
  generalize (Py.strip cmd) (Py.strip args). clear cmd sep args line.
  intros cmd args.
  repeat match goal with
  | |- has_post (if decide ?P then _ else _) _ => destruct (decide P)
  end;
  try (apply has_post_ret, pair_aligned_empty);
  try key_then_modifier.
  - (* DELAY *)
    eapply has_post_bind with (P := λ _, True); [done|]. intros d _.
    apply has_post_delay2USBBytes.
  - (* STRING *)
    apply has_post_for_chars; [|apply pair_aligned_empty].
    intros c r Hr. eapply has_post_bind;
      [by apply has_post_ASCIIChar2USBBytes|].
    intros keydata Hk%pair_aligned_0_2.
    case_decide; apply has_post_ret; [by apply pair_aligned_app|done].
  - (* STRING_DELAY *)
    destruct (Py.split1 " " args) as [|delay [|chars [|]]];
      try apply has_post_raise.
    eapply has_post_bind with (P := λ _, True); [done|]. intros d _.
    eapply has_post_bind; [apply has_post_delay2USBBytes|].
    intros delaystr Hd.
    apply has_post_for_chars; [|apply pair_aligned_empty].
    intros c r Hr. eapply has_post_bind;
      [by apply has_post_ASCIIChar2USBBytes|].
    intros keydata Hk%pair_aligned_0_2.
    case_decide; apply has_post_ret; [|done].
    by repeat apply pair_aligned_app.
  - (* CTRL alone *) apply has_post_raise.
  - (* ALT alone *) apply has_post_raise.
  - (* SHIFT alone *) apply has_post_raise.
Qed.

Lemma has_post_repeat_line (n : nat) (lastLine result : string) :
  pair_aligned result →
  has_post (repeat_line n lastLine keyProp langProp result) pair_aligned.
Proof.
  revert result. induction n as [|n IH]; intros result Hres; cbn [repeat_line].
  - by apply has_post_ret.
  - eapply has_post_bind; [apply has_post_parseScriptLine|].
    intros r Hr. by apply IH, pair_aligned_app.
Qed.

Lemma has_post_parseScript_step (st : string * option string) (l : string) :
  pair_aligned st.1 →
  has_post (parseScript_step keyProp langProp st l) (λ st', pair_aligned st'.1).
Proof.
  destruct st as [result lastLine]. cbn [fst]. intros Hres.
  unfold parseScript_step. fold (clean l).
  destruct (_ || _ || _); [by apply has_post_ret|].
  case_decide.
  - destruct (Py.split1 " " (clean l)) as [|r [|count [|]]], lastLine as [last|];
      try (by apply has_post_ret).
    eapply has_post_bind with (P := λ _, True); [done|]. intros n _.
    eapply has_post_bind; [by apply has_post_repeat_line|].
    intros result' Hres'. by apply has_post_ret.
  - eapply has_post_bind; [apply has_post_parseScriptLine|].
    intros r Hr. apply has_post_ret. by apply pair_aligned_app.
Qed.

Lemma has_post_parseScript_loop (lines : list string)
    (st : string * option string) :
  pair_aligned st.1 →
  has_post (parseScript_loop keyProp langProp lines st) pair_aligned.
Proof.
  revert st. induction lines as [|l lines IH]; intros st Hst;
    cbn [parseScript_loop].
  - by apply has_post_ret.
  - eapply has_post_bind; [by apply has_post_parseScript_step|]. apply IH.
Qed.
End Alignment.

(** The payload of a script is not always made of pairs.  A line that is
    an unknown key name gives the lone zero modifier, with a warning on
    standard error; and a character whose language entry names three keys
    gives three bytes, with no warning at all. *)
Lemma payload_odd :
  DuckEncoder.parseScript "SOMETHINGBOGUS" ∅ ∅
  = ([(Stderr, "Error: No keycode entry for KEY_SOMETHINGBOGUS" +:+ Py.nl);
      (Stderr, "Warning this could corrupt generated output file" +:+ Py.nl)],
     Ret (String "000" ""))
  ∧ ¬ pair_aligned (String "000" "")
  ∧ DuckEncoder.parseScript "STRING a" sample_keyboard three_names_language
    = ([], Ret (String "004" (String "002" (String "004" ""))))
  ∧ ¬ pair_aligned (String "004" (String "002" (String "004" ""))).
Proof.
  split_and!; [vm_compute; reflexivity| |vm_compute; reflexivity|];
    intros [k Hk]; cbn in Hk; lia.
Qed.

(** C1, amended. When every character entry of the language table names
    at most two keys, a payload that [parseScript] returns with nothing
    written to standard error has even length. *)
Theorem parseScript_pair_aligned (source : string)
    (keyProp langProp : gmap string string) (w : list (chan * string))
    (payload : string) :
  two_names_at_most langProp →
  DuckEncoder.parseScript source keyProp langProp = (w, Ret payload) →
  quiet w →
  pair_aligned payload.
Proof.
  intros Htwo Hrun Hquiet.
  eapply (has_post_parseScript_loop keyProp langProp Htwo); [|apply Hrun|done].
  apply pair_aligned_empty.
Qed.

Lemma sample_language_two_names : two_names_at_most sample_language.
Proof.
  intros c names Hc. apply (map_Forall_to_list
    (λ _ v, (length (Py.split "," v) ≤ 2)%nat) sample_language) in Hc; [done|].
  apply (bool_decide_unpack _). vm_compute. exact I.
Qed.

Lemma parseScript_pair_aligned_witness :
  pair_aligned
    (String "004" (String "002" (String "000" (String "255"
       (String "000" (String "045" (String "043" (String "004" "")))))))).
Proof.
  apply (parseScript_pair_aligned
           ("STRING A" +:+ Py.nl +:+ "DELAY 300" +:+ Py.nl +:+ "ALT-TAB")
           sample_keyboard sample_language []).
  - apply sample_language_two_names.
  - vm_compute. reflexivity.
  - constructor.
Defined.


(** * Further properties of the encoder *)

(** ** The device writer *)

Section Device.
Import DuckEncoder.

Lemma string_pair_ind (P : string → Prop) :
  P "" → (∀ c, P (String c "")) →
  (∀ a b s, P s → P (String a (String b s))) → ∀ s, P s.
Proof.
  intros H0 H1 H2.
  assert (∀ s, P s ∧ ∀ c, P (String c s)) as H; [|intros s; apply H].
  induction s as [|a s [IH1 IH2]]; [by split|].
  split; [apply IH2|]. intros c. by apply H2.
Qed.

Lemma out2hid_app_aligned (a b : string) :
  pair_aligned a → out2hid (a +:+ b) = out2hid a ++ out2hid b.
Proof.
  induction a as [|c|k m a IH] using string_pair_ind; intros [n Hn].
  - done.
  - cbn in Hn. lia.
  - change (String k (String m a) +:+ b) with (String k (String m (a +:+ b))).
    cbn [out2hid]. rewrite IH; [|exists (Nat.pred n); cbn in Hn; lia].
    by rewrite <-!(assoc_L (++)).
Qed.

Lemma out2hid_facts (data : string) :
  length (writes (out2hid data)) = (String.length data / 2)%nat
  ∧ Forall (λ r, String.length r = 16%nat
                 ∧ String.get 1 r = Some "000"%char) (writes (out2hid data))
  ∧ slept (out2hid data) = out2hid_sleep_ms data.
Proof.
  induction data as [|c|k m data (IHn & IHf & IHs)] using string_pair_ind.
  - by repeat split.
  - by repeat split.
  - cbn [out2hid out2hid_sleep_ms].
    change (String.length (String k (String m data)) / 2)%nat
      with ((2 + String.length data) / 2)%nat.
    replace ((2 + String.length data) / 2)%nat
      with (S (String.length data / 2)).
    2:{ replace (2 + String.length data)%nat
          with (1 * 2 + String.length data)%nat by lia.
        rewrite Nat.div_add_l by lia. lia. }
    assert (String.length (report k m) = 16%nat
            ∧ String.get 1 (report k m) = Some "000"%char) by done.
    destruct (decide (Py.ord k = 0)).
    + change (writes ([Sleep (Py.ord m)] ++ Write (report k m) :: out2hid data))
        with (report k m :: writes (out2hid data)).
      change (slept ([Sleep (Py.ord m)] ++ Write (report k m) :: out2hid data))
        with (Py.ord m + slept (out2hid data)).
      cbn [length]. rewrite IHn, IHs. split_and!; [done| |done].
      by constructor.
    + change (writes ([] ++ Write (report k m) :: out2hid data))
        with (report k m :: writes (out2hid data)).
      change (slept ([] ++ Write (report k m) :: out2hid data))
        with (slept (out2hid data)).
      cbn [length]. rewrite IHn, IHs. split_and!; [done| |lia].
      by constructor.
Qed.
End Device.

(** X1. A negative delay does not raise: it is encoded as the single pair
    (0x00, d mod 255), so that [out2hid] sleeps [d mod 255] ms, a time
    between 0 and 254. *)
Theorem delay2USBBytes_negative (d : Z) :
  d < 0 →
  DuckEncoder.delay2USBBytes d = ([], Ret (last_step (d mod 255)))
  ∧ slept (DuckEncoder.out2hid (last_step (d mod 255))) = d mod 255
  ∧ 0 ≤ d mod 255 < 255.
Proof.
  intros Hd. pose proof (Z.mod_pos_bound d 255 ltac:(lia)) as Hr.
  split_and!; try lia.
  - rewrite delay2USBBytes_eq.
    assert (d / 255 < 0) by (apply Z.div_lt_upper_bound; lia).
    by rewrite Z2Nat.nonpos by lia.
  - unfold last_step. cbn [DuckEncoder.out2hid].
    change (Py.ord "000") with 0. rewrite decide_True by done.
    cbn [slept app foldr]. rewrite ord_chr by lia. lia.
Qed.

Lemma delay2USBBytes_negative_witness :
  DuckEncoder.delay2USBBytes (-5) = ([], Ret (last_step 250)).
Proof. by apply (delay2USBBytes_negative (-5)). Defined.

(** X2. [out2hid] writes one report for every complete pair of the
    payload, a delay code included; every report has 16 bytes, the second
    of them zero; and the time it sleeps is the sum of the modifier bytes
    of the pairs whose key byte is zero. *)
Theorem out2hid_reports (data : string) :
  length (writes (DuckEncoder.out2hid data)) = (String.length data / 2)%nat
  ∧ Forall (λ r, String.length r = 16%nat ∧ String.get 1 r = Some "000"%char)
      (writes (DuckEncoder.out2hid data))
  ∧ slept (DuckEncoder.out2hid data) = DuckEncoder.out2hid_sleep_ms data.
Proof. apply out2hid_facts. Qed.

(** X3. What [out2hid] does with a payload of even length followed by
    more bytes is what it does with the first and then with the rest; and
    a single byte after a payload of even length is passed over. *)
Theorem out2hid_app (a b : string) (c : ascii) :
  pair_aligned a →
  DuckEncoder.out2hid (a +:+ b) = DuckEncoder.out2hid a ++ DuckEncoder.out2hid b
  ∧ DuckEncoder.out2hid (a +:+ String c "") = DuckEncoder.out2hid a.
Proof.
  intros Ha. split; [by apply out2hid_app_aligned|].
  rewrite out2hid_app_aligned by done. cbn [DuckEncoder.out2hid].
  by rewrite app_nil_r.
Qed.

Lemma out2hid_app_witness :
  DuckEncoder.out2hid (String "004" (String "002" "") +:+ String "000" "")
  = DuckEncoder.out2hid (String "004" (String "002" "")).
Proof.
  apply (out2hid_app (String "004" (String "002" "")) "" "000").
  by exists 1%nat.
Defined.

(** ** Table values and keys *)

Section Values.
Import DuckEncoder.
Variables keyProp langProp : gmap string string.


Lemma entries_loop_app (es1 rest : list string) (bs : list ascii)
    (result : string) :
  Forall2 (λ e b, entry_byte keyProp langProp (Py.strip e) b) es1 bs →
  entries_loop keyProp langProp (es1 ++ rest) result
  = entries_loop keyProp langProp rest (result +:+ string_of_list_ascii bs).
Proof.
  intros H. revert result.
  induction H as [|e b es bs (v & Hv & Hb) _ IH]; intros result.
  - cbn [app string_of_list_ascii]. by rewrite app_empty_r.
  - cbn [app entries_loop string_of_list_ascii].
    rewrite assign_keyval_table, Hv, (keyval2chr_byte _ _ Hb), bind_ret_l.
    rewrite IH. by rewrite app_assoc.
Qed.

Lemma ASCIIChar2USBBytes_bytes (char : ascii) (names : string)
    (bytes : list ascii) :
  langProp !! charName char = Some names →
  Forall2 (λ e b, entry_byte keyProp langProp (Py.strip e) b)
    (Py.split "," names) bytes →
  ASCIIChar2USBBytes char keyProp langProp
  = ret (match bytes with
         | [k] => String k (String "000" "")
         | _ => string_of_list_ascii bytes
         end).
Proof.
  intros Hlp Hbytes. unfold ASCIIChar2USBBytes.
  rewrite Hlp, (entries_loop_bytes _ _ _ _ _ Hbytes), bind_ret_l.
  change ("" +:+ string_of_list_ascii bytes) with (string_of_list_ascii bytes).
  destruct bytes as [|k [|k2 bytes]]; cbn [string_of_list_ascii].
  - by rewrite decide_False.
  - by rewrite decide_True.
  - rewrite decide_False; [done|]. unfold Py.len. cbn [String.length]. lia.
Qed.

Lemma byte_or_chr (a b : ascii) :
  Py.chr (Z.lor (Py.ord a) (Py.ord b)) = ret (String (byte_or a b) "").
Proof.
  unfold Py.ord, byte_or. rewrite <-N2Z.inj_lor.
  assert (N.lor (N_of_ascii a) (N_of_ascii b) < 256)%N as Hlt.
  { pose proof (N_ascii_bounded a) as Ha. pose proof (N_ascii_bounded b) as Hb.
    destruct (decide (N.lor (N_of_ascii a) (N_of_ascii b) = 0%N)) as [->|Hne];
      [done|].
    change 256%N with (2 ^ 8)%N in *.
    apply N.log2_lt_pow2; [lia|]. rewrite N.log2_lor.
    destruct (decide (N_of_ascii a = 0%N)) as [Ha0|Ha0],
             (decide (N_of_ascii b = 0%N)) as [Hb0|Hb0].
    - rewrite Ha0, Hb0 in Hne. done.
    - rewrite Ha0. apply N.max_lub_lt; [done|]. apply N.log2_lt_pow2; lia.
    - rewrite Hb0. apply N.max_lub_lt; [|done]. apply N.log2_lt_pow2; lia.
    - apply N.max_lub_lt; apply N.log2_lt_pow2; lia. }
  rewrite chr_Ret by lia. by rewrite N2Z.id.
Qed.

Lemma modifier_or_bytes (p q : string) (a b : ascii) :
  entry_byte keyProp langProp p a → entry_byte keyProp langProp q b →
  modifier_or p q keyProp langProp = ret (String (byte_or a b) "").
Proof.
  intros Ha Hb. unfold modifier_or.
  rewrite (prop2USBByte_entry _ _ _ _ Ha), bind_ret_l.
  cbn [Py.ord_str]. rewrite bind_ret_l.
  rewrite (prop2USBByte_entry _ _ _ _ Hb), bind_ret_l.
  cbn [Py.ord_str]. rewrite bind_ret_l. apply byte_or_chr.
Qed.

Lemma bind_Ret_run {A B} (m : M A) (k : A → M B) w a :
  m = (w, Ret a) → bind m k = (let '(w', r) := k a in (w ++ w', r)).
Proof. by intros ->. Qed.
End Values.



(** X5. When an entry of a character is in neither table,
    [ASCIIChar2USBBytes] gives up the character: it prints two lines on
    standard output and returns the empty string, also when the entries
    before it stood for bytes. *)
Theorem ASCIIChar2USBBytes_missing_entry (char : ascii) (names e : string)
    (es1 es2 : list string) (bytes : list ascii)
    (keyProp langProp : gmap string string) :
  langProp !! DuckEncoder.charName char = Some names →
  Py.split "," names = es1 ++ e :: es2 →
  Forall2 (λ e b, entry_byte keyProp langProp (Py.strip e) b) es1 bytes →
  table_value keyProp langProp (Py.strip e) = None →
  DuckEncoder.ASCIIChar2USBBytes char keyProp langProp
  = ([(Stdout, ("Error: No keycode entry for " +:+ Py.strip e) +:+ Py.nl);
      (Stdout, "Warning this could corrupt generated output file" +:+ Py.nl)],
     Ret "").
Proof.
  intros Hlp Hsplit Hes1 He. unfold DuckEncoder.ASCIIChar2USBBytes.
  rewrite Hlp, Hsplit, (entries_loop_app _ _ _ _ _ _ Hes1).
  cbn [DuckEncoder.entries_loop]. by rewrite assign_keyval_table, He.
Qed.

Lemma ASCIIChar2USBBytes_missing_entry_witness :
  DuckEncoder.ASCIIChar2USBBytes "a" sample_keyboard
    (<["ASCII_61" := "KEY_A, MODIFIERKEY_FN"]> ∅)
  = ([(Stdout, "Error: No keycode entry for MODIFIERKEY_FN" +:+ Py.nl);
      (Stdout, "Warning this could corrupt generated output file" +:+ Py.nl)],
     Ret "").
Proof.
  apply (ASCIIChar2USBBytes_missing_entry "a" "KEY_A, MODIFIERKEY_FN"
           " MODIFIERKEY_FN" ["KEY_A"] [] ["004"%char]); [done|done| |done].
  repeat constructor. entry_by_eval.
Defined.

(** X6. A key instruction of one character stands for the first byte of
    the character's entry alone: the modifier that the character would
    carry in a STRING line is dropped. *)
Theorem keyInstr2USBBytes_char (c k : ascii) (names : string)
    (bytes : list ascii) (keyProp langProp : gmap string string) :
  langProp !! DuckEncoder.charName c = Some names →
  Forall2 (λ e b, entry_byte keyProp langProp (Py.strip e) b)
    (Py.split "," names) (k :: bytes) →
  DuckEncoder.keyInstr2USBBytes (String c "") keyProp langProp
  = ([], Ret (String k "")).
Proof.
  intros Hlp Hbytes. unfold DuckEncoder.keyInstr2USBBytes. decide_closed.
  rewrite (ASCIIChar2USBBytes_bytes _ _ _ _ _ Hlp Hbytes), bind_ret_l.
  by destruct bytes.
Qed.

Lemma keyInstr2USBBytes_char_witness :
  DuckEncoder.keyInstr2USBBytes "A" sample_keyboard sample_language
  = ([], Ret (String "004" "")).
Proof.
  apply (keyInstr2USBBytes_char "A" "004" "KEY_A, MODIFIERKEY_SHIFT" ["002"%char]);
    [done|]. repeat constructor; entry_by_eval.
Defined.

(** X7. A CONTROL, CTRL, ALT, SHIFT, GUI, WINDOWS or COMMAND line with an
    argument encodes to what the key instruction gives, which is nothing
    for an unknown key, followed by the byte of the command's modifier. *)
Theorem modifier_key_line (line p key : string) (m : ascii)
    (w : list (chan * string)) (keyProp langProp : gmap string string) :
  (cmd_of line, p) ∈ single_modifiers →
  args_of line ≠ "" →
  DuckEncoder.keyInstr2USBBytes (args_of line) keyProp langProp = (w, Ret key) →
  entry_byte keyProp langProp p m →
  DuckEncoder.parseScriptLine line keyProp langProp
  = (w, Ret (key +:+ String m "")).
Proof.
  unfold cmd_of, args_of, DuckEncoder.parseScriptLine.
  destruct (Py.partition " " line) as [[cmd sep] args]. cbn [fst snd].
  generalize (Py.strip cmd) (Py.strip args). clear. intros cmd args.
  intros Hin Hargs Hkey Hm. unfold single_modifiers in Hin.
  repeat (apply elem_of_cons in Hin as [[= -> ->]|Hin];
    [decide_closed; rewrite decide_True by done;
     rewrite (bind_Ret_run _ _ _ _ Hkey),
       (prop2USBByte_entry _ _ _ _ Hm), bind_ret_l;
     cbn; by rewrite app_nil_r|]).
  by apply elem_of_nil in Hin.
Qed.

Lemma modifier_key_line_witness :
  DuckEncoder.parseScriptLine "CTRL A" sample_keyboard sample_language
  = ([], Ret (String "004" (String "001" ""))).
Proof.
  apply (modifier_key_line "CTRL A" "MODIFIERKEY_CTRL" (String "004" "") "001" []).
  - apply (bool_decide_unpack _). vm_compute. exact I.
  - done.
  - vm_compute. reflexivity.
  - entry_by_eval.
Defined.

(** X8. A CTRL-ALT, CTRL-SHIFT, COMMAND-OPTION or ALT-SHIFT line with an
    argument encodes to what the key instruction gives followed by one
    byte, the bitwise or of the bytes of the command's two modifiers. *)
Theorem compound_modifier_line (line p q key : string) (a b : ascii)
    (w : list (chan * string)) (keyProp langProp : gmap string string) :
  (cmd_of line, (p, q)) ∈ compound_modifiers →
  args_of line ≠ "" →
  DuckEncoder.keyInstr2USBBytes (args_of line) keyProp langProp = (w, Ret key) →
  entry_byte keyProp langProp p a →
  entry_byte keyProp langProp q b →
  DuckEncoder.parseScriptLine line keyProp langProp
  = (w, Ret (key +:+ String (byte_or a b) "")).
Proof.
  unfold cmd_of, args_of, DuckEncoder.parseScriptLine.
  destruct (Py.partition " " line) as [[cmd sep] args]. cbn [fst snd].
  generalize (Py.strip cmd) (Py.strip args). clear. intros cmd args.
  intros Hin Hargs Hkey Ha Hb. unfold compound_modifiers in Hin.
  repeat (apply elem_of_cons in Hin as [[= -> -> ->]|Hin];
    [decide_closed; rewrite decide_True by done;
     rewrite (bind_Ret_run _ _ _ _ Hkey),
       (modifier_or_bytes _ _ _ _ _ _ Ha Hb), bind_ret_l;
     cbn; by rewrite app_nil_r|]).
  by apply elem_of_nil in Hin.
Qed.

Lemma compound_modifier_line_witness :
  DuckEncoder.parseScriptLine "CTRL-ALT RETURN" sample_keyboard sample_language
  = ([], Ret (String "040" (String "005" ""))).
Proof.
  apply (compound_modifier_line "CTRL-ALT RETURN" "MODIFIERKEY_CTRL"
           "MODIFIERKEY_ALT" (String "040" "") "001" "004" []).
  - apply (bool_decide_unpack _). vm_compute. exact I.
  - done.
  - vm_compute. reflexivity.
  - entry_by_eval.
  - entry_by_eval.
Defined.

(** ** Texts *)

Section Texts.
Import DuckEncoder.
Variables keyProp langProp : gmap string string.

Lemma bind_ret_r {A} (m : M A) : bind m ret = m.
Proof. destruct m as [w [a|e]]; [|done]. cbn. by rewrite app_nil_r. Qed.

Lemma bind_ext {A B} (m : M A) (k1 k2 : A → M B) :
  (∀ a, k1 a = k2 a) → bind m k1 = bind m k2.
Proof. intros H. destruct m as [w [a|e]]; [|done]. cbn. by rewrite H. Qed.

Lemma for_chars_ext (s : string) (body1 body2 : ascii → string → M string)
    (result : string) :
  (∀ c r, body1 c r = body2 c r) →
  for_chars s body1 result = for_chars s body2 result.
Proof.
  intros H. revert result. induction s as [|c s IH]; intros result; [done|].
  cbn [for_chars]. rewrite H. by apply bind_ext.
Qed.

(** The loop of a text whose characters all return: the outputs and the
    results, in order; [f] is what the loop appends for a result. *)
Lemma for_chars_encode (text : string) (f : string → string)
    (body : ascii → string → M string)
    (encs : list (list (chan * string) * string)) (result : string) :
  (∀ c r w data, ASCIIChar2USBBytes c keyProp langProp = (w, Ret data) →
                 body c r = (w, Ret (r +:+ f data))) →
  chars_encode keyProp langProp text encs →
  for_chars text body result
  = (concat encs.*1, Ret (result +:+ String.concat "" (f <$> encs.*2))).
Proof.
  intros Hbody. unfold chars_encode. revert encs result.
  induction text as [|c text IH]; intros encs result Henc;
    cbn [list_ascii_of_string] in Henc.
  - apply Forall2_nil_inv_l in Henc as ->. cbn. by rewrite app_empty_r.
  - apply Forall2_cons_inv_l in Henc as ([w data] & encs' & Hc & Henc & ->).
    cbn [for_chars]. rewrite (Hbody _ _ _ _ Hc). cbn [bind].
    rewrite (IH _ _ Henc). cbn [fmap list_fmap fst snd concat].
    f_equal. f_equal. rewrite app_assoc. f_equal.
    destruct encs' as [|e encs']; [cbn; by rewrite app_empty_r|done].
Qed.

Lemma string_body_spec (c : ascii) (r : string) w data :
  ASCIIChar2USBBytes c keyProp langProp = (w, Ret data) →
  (keydata <- ASCIIChar2USBBytes c keyProp langProp ;;
   if decide (Py.len keydata > 0) then ret (r +:+ keydata) else ret r)
  = (w, Ret (r +:+ data)).
Proof.
  intros ->. cbn [bind]. case_decide as Hlen; cbn; rewrite app_nil_r; [done|].
  destruct data; [by rewrite app_empty_r|]. unfold Py.len in Hlen.
  cbn [String.length] in Hlen. lia.
Qed.

Lemma string_line_rawpassthru (line : string) :
  cmd_of line = "STRING" →
  parseScriptLine line keyProp langProp
  = rawpassthru (args_of line) keyProp langProp.
Proof.
  unfold cmd_of, args_of, parseScriptLine, rawpassthru.
  destruct (Py.partition " " line) as [[cmd sep] args]. cbn [fst snd].
  intros ->. decide_closed. case_decide as Ha; [by rewrite Ha|].
  apply for_chars_ext. intros c r. cbn [for_chars]. by rewrite bind_ret_r.
Qed.

Lemma outhidString_rawpassthru (str : string) :
  outhidString str keyProp langProp
  = (payload <- rawpassthru str keyProp langProp ;; ret (out2hid payload)).
Proof.
  unfold outhidString, rawpassthru. f_equal.
  apply for_chars_ext. intros c r. cbn [for_chars]. rewrite bind_ret_r.
  apply bind_ext. intros data. case_decide as Hlen; [done|].
  destruct data; [by rewrite app_empty_r|]. unfold Py.len in Hlen.
  cbn [String.length] in Hlen. lia.
Qed.
End Texts.

(** X9. The three ways to encode a text agree: a STRING line encodes its
    argument as the raw passthrough of [main] encodes its input, and
    [outhidString] hands the same payload to [out2hid]. *)
Theorem string_paths_agree (keyProp langProp : gmap string string) :
  (∀ line, cmd_of line = "STRING" →
     DuckEncoder.parseScriptLine line keyProp langProp
     = DuckEncoder.rawpassthru (args_of line) keyProp langProp)
  ∧ (∀ str, DuckEncoder.outhidString str keyProp langProp
            = (payload <- DuckEncoder.rawpassthru str keyProp langProp ;;
               ret (DuckEncoder.out2hid payload))).
Proof.
  split; [apply string_line_rawpassthru|apply outhidString_rawpassthru].
Qed.

Lemma string_paths_agree_witness :
  DuckEncoder.parseScriptLine "STRING  Ab a" sample_keyboard sample_language
  = DuckEncoder.rawpassthru "Ab a" sample_keyboard sample_language.
Proof. by apply (string_paths_agree sample_keyboard sample_language). Defined.

(** X10. When [ASCIIChar2USBBytes] returns for every character of a text,
    the raw passthrough returns the results joined in the order of the
    characters, and has written what the characters wrote, in that order;
    a skipped character adds nothing. *)
Theorem rawpassthru_concat (text : string)
    (encs : list (list (chan * string) * string))
    (keyProp langProp : gmap string string) :
  chars_encode keyProp langProp text encs →
  DuckEncoder.rawpassthru text keyProp langProp
  = (concat encs.*1, Ret (String.concat "" encs.*2)).
Proof.
  intros Henc. unfold DuckEncoder.rawpassthru.
  rewrite (for_chars_encode keyProp langProp text id _ encs); [|..|done].
  - by rewrite list_fmap_id.
  - intros c r w data Hc. cbn [DuckEncoder.for_chars].
    rewrite bind_ret_r. by apply string_body_spec.
Qed.

Lemma rawpassthru_concat_witness :
  ∃ w, DuckEncoder.rawpassthru "Ab" sample_keyboard sample_language
       = (w, Ret (String "004" (String "002" ""))).
Proof.
  eexists.
  apply (rawpassthru_concat "Ab"
           [([], String "004" (String "002" ""));
            ([(Stdout, "b interpreted as ASCII_62, but not found in chosen language property file. Skipping character!" +:+ Py.nl)], "")]
           sample_keyboard sample_language).
  repeat constructor.
Defined.

(** X11. A STRING_DELAY line whose argument is a number [d] and a text
    encodes, for every character of the text that gives bytes, these bytes
    followed by the bytes of the delay [d]; a character that gives none
    gets no delay either. *)
Theorem string_delay_line (line ds chars : string) (d : Z)
    (encs : list (list (chan * string) * string))
    (keyProp langProp : gmap string string) :
  cmd_of line = "STRING_DELAY" →
  Py.split1 " " (args_of line) = [ds; chars] →
  Py.literal 10 (Py.strip ds) = Some d →
  chars_encode keyProp langProp (Py.strip chars) encs →
  DuckEncoder.parseScriptLine line keyProp langProp
  = (concat encs.*1,
     Ret (String.concat ""
            ((λ data, match data with
                      | "" => ""
                      | _ => data +:+ delay_bytes d
                      end) <$> encs.*2))).
Proof.
  unfold cmd_of, args_of, DuckEncoder.parseScriptLine.
  destruct (Py.partition " " line) as [[cmd sep] args]. cbn [fst snd].
  intros -> Hsplit Hd Henc. decide_closed.
  rewrite decide_False by (intros Ha; by rewrite Ha in Hsplit).
  rewrite Hsplit. unfold Py.int. rewrite Hd, bind_ret_l.
  rewrite delay2USBBytes_eq. fold (delay_bytes d).
  change (@pair (list (chan * string)) (outcome string) [] (Ret (delay_bytes d)))
    with (ret (delay_bytes d)).
  rewrite bind_ret_l.
  rewrite (for_chars_encode keyProp langProp (Py.strip chars)
             (λ data, match data with "" => "" | _ => data +:+ delay_bytes d end)
             _ encs); [done| |done].
  intros c r w data ->. cbn [bind]. destruct data as [|k data].
  - rewrite decide_False by (unfold Py.len; cbn; lia).
    cbn. by rewrite app_nil_r, app_empty_r.
  - rewrite decide_True by (unfold Py.len; cbn [String.length]; lia).
    cbn. by rewrite app_nil_r.
Qed.

Lemma string_delay_line_witness :
  DuckEncoder.parseScriptLine "STRING_DELAY 300 Aa" sample_keyboard sample_language
  = ([], Ret (String.concat ""
                [String "004" (String "002" "") +:+ delay_bytes 300;
                 String "004" (String "000" "") +:+ delay_bytes 300])).
Proof.
  apply (string_delay_line "STRING_DELAY 300 Aa" "300" "Aa" 300
           [([], String "004" (String "002" ""));
            ([], String "004" (String "000" ""))]); try done.
  repeat constructor.
Defined.

(** ** Scripts *)

Section Scripts.
Import DuckEncoder.
Variables keyProp langProp : gmap string string.

Lemma prefix_app (p t : string) : String.prefix p (p +:+ t) = true.
Proof.
  induction p as [|c p IH]; [by destruct t|].
  change (String c p +:+ t) with (String c (p +:+ t)). cbn [String.prefix].
  by destruct (ascii_dec c c).
Qed.

Lemma prefix_inv (p s : string) :
  String.prefix p s = true → ∃ t, s = p +:+ t.
Proof.
  revert s. induction p as [|c p IH]; intros s; [by exists s|].
  destruct s as [|c' s]; cbn [String.prefix]; [done|].
  destruct (ascii_dec c c') as [<-|]; [|done].
  intros [t ->]%IH. by exists t.
Qed.

Lemma skipped_test (l : string) :
  bool_decide (Py.len (clean l) = 0) || Py.startswith "//" (clean l)
    || Py.startswith "REM " (clean l) = true ↔ skipped l.
Proof.
  unfold skipped, Py.startswith.
  rewrite !orb_true_iff, bool_decide_eq_true. split.
  - intros [[Hlen|Hp]|Hp].
    + left. unfold Py.len in Hlen. destruct (clean l); [done|].
      cbn [String.length] in Hlen. lia.
    + right. left. by apply prefix_inv.
    + right. right. by apply prefix_inv.
  - intros [->|[[t ->]|[t ->]]].
    + by left; left.
    + left. right. apply prefix_app.
    + right. apply prefix_app.
Qed.

Lemma parseScript_step_skipped (st : string * option string) (l : string) :
  skipped l → parseScript_step keyProp langProp st l = ret st.
Proof.
  intros Hs%skipped_test. destruct st as [result lastLine].
  unfold parseScript_step. fold (clean l). by rewrite Hs.
Qed.

Lemma parseScript_step_plain (result : string) (lastLine : option string)
    (l : string) :
  plain l →
  parseScript_step keyProp langProp (result, lastLine) l
  = (r <- parseScriptLine (clean l) keyProp langProp ;;
     ret (result +:+ r, Some (clean l))).
Proof.
  intros [Hs Hr]. unfold parseScript_step. fold (clean l).
  destruct (_ || _ || _) eqn:Htest; [by apply skipped_test in Htest|].
  by rewrite decide_False.
Qed.

Lemma repeat_line_run (n : nat) (last result r : string) w :
  parseScriptLine last keyProp langProp = (w, Ret r) →
  repeat_line n last keyProp langProp result
  = (concat (replicate n w), Ret (result +:+ repeat_str n r)).
Proof.
  intros Hlast. revert result. induction n as [|n IH]; intros result.
  - cbn. by rewrite app_empty_r.
  - cbn [repeat_line replicate concat repeat_str]. rewrite Hlast. cbn [bind].
    rewrite IH. by rewrite app_assoc.
Qed.
End Scripts.

(** X12. Blank lines and the comment lines that start with // or with
    REM and a space change nothing: the script goes on after them with the
    payload and the recorded line it had before them.  A script of such
    lines alone has the empty payload. *)
Theorem skipped_lines (lines rest : list string) (st : string * option string)
    (keyProp langProp : gmap string string) :
  Forall skipped lines →
  DuckEncoder.parseScript_loop keyProp langProp (lines ++ rest) st
  = DuckEncoder.parseScript_loop keyProp langProp rest st.
Proof.
  induction 1 as [|l lines Hl _ IH]; [done|].
  cbn [app DuckEncoder.parseScript_loop].
  by rewrite (parseScript_step_skipped _ _ _ _ Hl), bind_ret_l.
Qed.

Lemma skipped_lines_witness :
  DuckEncoder.parseScript_loop sample_keyboard sample_language
    (["// a comment" +:+ Py.nl; Py.cr +:+ Py.nl; "  REM remark"] ++ []) ("", None)
  = ([], Ret "").
Proof.
  rewrite (skipped_lines _ [] ("", None) sample_keyboard sample_language);
    [done|].
  constructor; [|constructor; [|constructor; [|constructor]]].
  - right. left. by exists " a comment".
  - by left.
  - right. right. by exists "remark".
Defined.

(** X13. For a script without REPEAT lines, the payload is what the
    encoded lines return, joined in the order of the lines, and the output
    is what they wrote, in that order. *)
Theorem plain_lines_concat (lines : list string)
    (encs : list (list (chan * string) * string))
    (result : string) (lastLine : option string)
    (keyProp langProp : gmap string string) :
  Forall2 (λ l e, plain l
                  ∧ DuckEncoder.parseScriptLine (clean l) keyProp langProp
                    = (e.1, Ret e.2)) lines encs →
  DuckEncoder.parseScript_loop keyProp langProp lines (result, lastLine)
  = (concat encs.*1, Ret (result +:+ String.concat "" encs.*2)).
Proof.
  intros H. revert result lastLine.
  induction H as [|l [w r] lines encs [Hl He] _ IH]; intros result lastLine.
  - cbn. by rewrite app_empty_r.
  - cbn [DuckEncoder.parseScript_loop].
    rewrite (parseScript_step_plain _ _ _ _ _ Hl), He. cbn [bind ret fst snd].
    rewrite IH. cbn [fmap list_fmap fst snd concat app].
    rewrite app_nil_r, app_assoc. do 3 f_equal.
    destruct encs as [|e encs]; [cbn; by rewrite app_empty_r|done].
Qed.

Lemma plain_lines_concat_witness :
  DuckEncoder.parseScript_loop sample_keyboard sample_language
    ["STRING A" +:+ Py.nl; "ALT-TAB"] ("", None)
  = ([], Ret (String "004" (String "002" "") +:+ String "043" (String "004" ""))).
Proof.
  apply (plain_lines_concat ["STRING A" +:+ Py.nl; "ALT-TAB"]
           [([], String "004" (String "002" ""));
            ([], String "043" (String "004" ""))]).
  constructor; [|constructor; [|constructor]]; (split; [split|]); try done;
    intros [H|[[t H]|[t H]]]; vm_compute in H; discriminate.
Defined.

(** X14. A REPEAT line with the count [n], after a recorded line that
    encodes to [r], appends [r] exactly [n] times, and nothing when [n] is
    negative; what the recorded line writes is written as many times.  The
    REPEAT line itself then becomes the recorded line. *)
Theorem repeat_step (l last rp count result r : string) (n : Z)
    (w : list (chan * string)) (keyProp langProp : gmap string string) :
  Py.slice_to 7 (clean l) = "REPEAT " →
  Py.split1 " " (clean l) = [rp; count] →
  Py.literal 10 (Py.strip count) = Some n →
  DuckEncoder.parseScriptLine last keyProp langProp = (w, Ret r) →
  DuckEncoder.parseScript_step keyProp langProp (result, Some last) l
  = (concat (replicate (Z.to_nat n) w),
     Ret (result +:+ DuckEncoder.repeat_str (Z.to_nat n) r, Some (clean l))).
Proof.
  intros Hl Hs Hn Hlast.
  rewrite (parseScript_step_repeat _ _ _ _ _ _ _ Hl Hs).
  unfold Py.int. rewrite Hn, bind_ret_l.
  rewrite (repeat_line_run _ _ _ _ _ _ _ Hlast). cbn. by rewrite app_nil_r.
Qed.

Lemma repeat_step_witness :
  DuckEncoder.parseScript_step sample_keyboard sample_language
    ("", Some "STRING A") "REPEAT -3"
  = ([], Ret ("", Some "REPEAT -3"))
  ∧ DuckEncoder.parseScript_step sample_keyboard sample_language
      ("", Some "STRING A") ("REPEAT 2" +:+ Py.nl)
    = ([], Ret (String "004" (String "002" (String "004" (String "002" ""))),
                Some "REPEAT 2")).
Proof.
  split.
  - by apply (repeat_step "REPEAT -3" "STRING A" "REPEAT" "-3" ""
                (String "004" (String "002" "")) (-3) []).
  - by apply (repeat_step ("REPEAT 2" +:+ Py.nl) "STRING A" "REPEAT" "2" ""
                (String "004" (String "002" "")) 2 []).
Defined.

(** X15. A line whose first word is no command is encoded as that word
    read as a key, followed by the zero modifier: what the key instruction
    gives, which is nothing for an unknown name, and the byte 0x00.  The
    rest of the line is not looked at. *)
Theorem bare_key_line (line key : string) (w : list (chan * string))
    (keyProp langProp : gmap string string) :
  cmd_of line ∉ keywords →
  DuckEncoder.keyInstr2USBBytes (cmd_of line) keyProp langProp = (w, Ret key) →
  DuckEncoder.parseScriptLine line keyProp langProp
  = (w, Ret (key +:+ String "000" ""))
  ∧ ∀ line', cmd_of line' = cmd_of line →
      DuckEncoder.parseScriptLine line' keyProp langProp
      = DuckEncoder.parseScriptLine line keyProp langProp.
Proof.
  intros Hcmd Hkey. split.
  - rewrite parseScriptLine_bare, Hkey by done. cbn. by rewrite app_nil_r.
  - intros line' Heq. rewrite !parseScriptLine_bare by (by rewrite ?Heq).
    by rewrite Heq.
Qed.

Lemma bare_key_line_witness :
  DuckEncoder.parseScriptLine "ENTER" sample_keyboard sample_language
  = ([], Ret (String "040" (String "000" "")))
  ∧ DuckEncoder.parseScriptLine "ENTER twice" sample_keyboard sample_language
    = DuckEncoder.parseScriptLine "ENTER" sample_keyboard sample_language.
Proof.
  destruct (bare_key_line "ENTER" (String "040" "") [] sample_keyboard
              sample_language) as [H1 H2].
  - apply (bool_decide_unpack _). vm_compute. exact I.
  - vm_compute. reflexivity.
  - split; [exact H1|]. by apply H2.
Defined.

(** ** White space *)

Section WhiteSpace.

Lemma rev_app_spec (s t : string) : String.rev_app s t = String.rev s +:+ t.
Proof.
  revert t. induction s as [|a s IH]; intros t; [done|].
  unfold String.rev. cbn [String.rev_app]. rewrite (IH (String a "")), IH.
  by rewrite app_assoc.
Qed.

Lemma rev_cons (c : ascii) (s : string) :
  String.rev (String c s) = String.rev s +:+ String c "".
Proof. unfold String.rev at 1. cbn [String.rev_app]. apply rev_app_spec. Qed.

Lemma rev_app_distr (s t : string) :
  String.rev (s +:+ t) = String.rev t +:+ String.rev s.
Proof.
  induction s as [|a s IH]; [by rewrite app_empty_r|].
  change (String a s +:+ t) with (String a (s +:+ t)).
  by rewrite !rev_cons, IH, app_assoc.
Qed.

Lemma rev_involutive (s : string) : String.rev (String.rev s) = s.
Proof.
  induction s as [|a s IH]; [done|]. by rewrite rev_cons, rev_app_distr, IH.
Qed.

Lemma lstrip_no_lead (s : string) : no_lead (Py.lstrip s).
Proof.
  induction s as [|c s IH]; [done|]. cbn [Py.lstrip].
  by destruct (Ascii.is_space c) eqn:Hc.
Qed.

Lemma no_lead_lstrip (s : string) : no_lead s → Py.lstrip s = s.
Proof. destruct s as [|c s]; [done|]. cbn. by intros ->. Qed.

Lemma lstrip_app_empty (a b : string) :
  Py.lstrip a = "" → Py.lstrip (a +:+ b) = Py.lstrip b.
Proof.
  induction a as [|c a IH]; [done|].
  change (String c a +:+ b) with (String c (a +:+ b)). cbn [Py.lstrip].
  by destruct (Ascii.is_space c).
Qed.

Lemma lstrip_app_nonempty (a b : string) :
  Py.lstrip a ≠ "" → Py.lstrip (a +:+ b) = Py.lstrip a +:+ b.
Proof.
  induction a as [|c a IH]; [done|].
  change (String c a +:+ b) with (String c (a +:+ b)). cbn [Py.lstrip].
  by destruct (Ascii.is_space c).
Qed.



Lemma rstrip_no_lead (s : string) : no_lead s → no_lead (Py.rstrip s).
Proof.
  destruct s as [|c s]; [done|]. cbn [no_lead]. intros Hc.
  unfold Py.rstrip. rewrite rev_cons.
  destruct (decide (Py.lstrip (String.rev s) = "")) as [He|Hne].
  - rewrite lstrip_app_empty by done. cbn [Py.lstrip]. by rewrite Hc.
  - rewrite lstrip_app_nonempty, rev_app_distr by done. done.
Qed.

Lemma rstrip_idemp (s : string) : Py.rstrip (Py.rstrip s) = Py.rstrip s.
Proof.
  unfold Py.rstrip. rewrite rev_involutive.
  by rewrite (no_lead_lstrip _ (lstrip_no_lead _)).
Qed.

Lemma strip_idemp (s : string) : Py.strip (Py.strip s) = Py.strip s.
Proof.
  unfold Py.strip.
  rewrite (no_lead_lstrip (Py.rstrip (Py.lstrip s)))
    by apply rstrip_no_lead, lstrip_no_lead.
  apply rstrip_idemp.
Qed.
End WhiteSpace.

(** ** Line terminators *)

Section Terminators.
Import DuckEncoder.
Variables keyProp langProp : gmap string string.






End Terminators.



(** ** Resource files *)

Section Resources.
Import DuckEncoder.

Lemma readResource_step_cases (d : gmap string string) (l : string) :
  (resource_text l = "" ∧ readResource_step d l = ret d)
  ∨ (malformed l ∧ readResource_step d l = raise ValueError)
  ∨ (∃ key val, resource_text l ≠ ""
                ∧ Py.split1 "=" (resource_text l) = [key; val]
                ∧ readResource_step d l
                  = ret (<[Py.strip key := Py.strip val]> d)).
Proof.
  unfold readResource_step, malformed.
  change (Py.replace Py.nl "" (Py.replace (Py.cr +:+ Py.nl) ""
            (Py.strip (Py.split_head "//" l)))) with (resource_text l).
  destruct (resource_text l) as [|c t] eqn:Ht; [by left|right].
  rewrite decide_False by (unfold Py.len; cbn [String.length]; lia).
  unfold Py.split1.
  destruct (Py.partition "=" (String c t)) as [[a [|s0 sep]] b].
  - left. by repeat split.
  - right. exists a, b. by repeat split.
Qed.

Lemma readResource_loop_app (ls1 ls2 : list string) (d : gmap string string) :
  readResource_loop (ls1 ++ ls2) d
  = (d' <- readResource_loop ls1 d ;; readResource_loop ls2 d').
Proof.
  revert d. induction ls1 as [|l ls1 IH]; intros d.
  - cbn [app readResource_loop]. by rewrite bind_ret_l.
  - cbn [app readResource_loop].
    destruct (readResource_step d l) as [w [d'|e]]; [|done].
    cbn [bind]. rewrite IH.
    by destruct (readResource_loop ls1 d') as [w1 [d1|e1]];
      [cbn [bind]; destruct (readResource_loop ls2 d1); rewrite (assoc_L (++))|].
Qed.

(** Loading never writes, and fails with ValueError only. *)
Lemma readResource_loop_outcome (ls : list string) (d : gmap string string) :
  (∃ d', readResource_loop ls d = ([], Ret d'))
  ∨ readResource_loop ls d = ([], Raise ValueError).
Proof.
  revert d. induction ls as [|l ls IH]; intros d; [left; by exists d|].
  cbn [readResource_loop].
  destruct (readResource_step_cases d l)
    as [[_ ->]|[[_ ->]|(key & val & _ & _ & ->)]];
    rewrite ?bind_ret_l; [apply IH|by right|apply IH].
Qed.


Lemma readResource_loop_other (ls : list string) (k : string)
    (d d' : gmap string string) w :
  readResource_loop ls d = (w, Ret d') →
  (∀ l v, l ∈ ls → ¬ defines l k v) →
  d' !! k = d !! k.
Proof.
  revert d. induction ls as [|l ls IH]; intros d Hrun Hno.
  - cbn in Hrun. by injection Hrun as _ ->.
  - cbn [readResource_loop] in Hrun.
    destruct (readResource_step_cases d l)
      as [[Ht Hs]|[[_ Hs]|(key & val & Ht & Hsp & Hs)]]; rewrite Hs in Hrun;
      rewrite ?bind_ret_l in Hrun; [|done|].
    + apply IH; [done|]. intros l' v Hin. apply Hno. by right.
    + rewrite (IH _ Hrun) by (intros l' v Hin; apply Hno; by right).
      apply lookup_insert_ne. intros Hk.
      apply (Hno l (Py.strip val)); [by left|].
      split; [done|]. by exists key, val.
Qed.

Lemma readResource_loop_trimmed (ls : list string) (d d' : gmap string string) w :
  readResource_loop ls d = (w, Ret d') →
  map_Forall (λ k v, Py.strip k = k ∧ Py.strip v = v) d →
  map_Forall (λ k v, Py.strip k = k ∧ Py.strip v = v) d'.
Proof.
  revert d. induction ls as [|l ls IH]; intros d Hrun Hd.
  - cbn in Hrun. by injection Hrun as _ <-.
  - cbn [readResource_loop] in Hrun.
    destruct (readResource_step_cases d l)
      as [[Ht Hs]|[[_ Hs]|(key & val & Ht & Hsp & Hs)]]; rewrite Hs in Hrun;
      rewrite ?bind_ret_l in Hrun; [by eapply IH|done|].
    eapply IH; [done|]. apply map_Forall_insert_2; [|done].
    split; apply strip_idemp.
Qed.
End Resources.



(** X18. In the table that [readResource] returns, a name has the value
    that the last line defining it gives, and a name that no line defines
    is absent; lines that are blank or hold a comment only define
    nothing. *)
Theorem readResource_lookup (lines1 lines2 : list string) (l k v : string)
    (d : gmap string string) (w : list (chan * string)) :
  DuckEncoder.readResource (lines1 ++ l :: lines2) = (w, Ret d) →
  (∀ l' v', l' ∈ lines2 → ¬ defines l' k v') →
  (defines l k v → d !! k = Some v)
  ∧ ((∀ l' v', l' ∈ l :: lines1 → ¬ defines l' k v') → d !! k = None).
Proof.
  unfold DuckEncoder.readResource. intros Hrun Hafter. split.
  - intros (Ht & key & val & Hsp & -> & ->).
    rewrite readResource_loop_app in Hrun.
    apply bind_Ret_inv in Hrun as (w1 & d1 & w2 & _ & Hrun & _).
    cbn [DuckEncoder.readResource_loop] in Hrun.
    destruct (readResource_step_cases d1 l)
      as [[Ht' _]|[[[_ Hlen] _]|(key' & val' & _ & Hsp' & Hs)]];
      [done|by rewrite Hsp in Hlen|].
    rewrite Hs, bind_ret_l in Hrun. rewrite Hsp in Hsp'.
    injection Hsp' as <- <-.
    rewrite (readResource_loop_other _ _ _ _ _ Hrun Hafter).
    apply lookup_insert_eq.
  - intros Hbefore.
    rewrite (readResource_loop_other _ k _ _ _ Hrun); [done|].
    intros l' v' [Hin|Hin]%elem_of_app.
    + apply Hbefore. by right.
    + apply elem_of_cons in Hin as [->|Hin]; [apply Hbefore; by left|].
      by apply Hafter.
Qed.

Lemma readResource_lookup_witness :
  ∃ d, DuckEncoder.readResource
         (["KEY_A = 0x04" +:+ Py.nl; "// keys" +:+ Py.nl]
          ++ ("KEY_A=4 // again" +:+ Py.nl) :: [Py.nl; "KEY_B = 5"])
       = ([], Ret d)
       ∧ d !! "KEY_A" = Some "4".
Proof.
  destruct (readResource_loop_outcome
              (["KEY_A = 0x04" +:+ Py.nl; "// keys" +:+ Py.nl]
               ++ ("KEY_A=4 // again" +:+ Py.nl) :: [Py.nl; "KEY_B = 5"]) ∅)
    as [[d Hd]|Hr]; [|vm_compute in Hr; discriminate].
  exists d. split; [exact Hd|].
  refine (proj1 (readResource_lookup _ _ _ "KEY_A" "4" _ _ Hd _) _).
  - intros l' v' Hin (Ht & key & val & Hsp & Hk & _).
    apply elem_of_cons in Hin as [->|Hin]; [by vm_compute in Ht|].
    apply list_elem_of_singleton in Hin as ->.
    vm_compute in Hsp. injection Hsp as <- <-. by vm_compute in Hk.
  - split; [by vm_compute|]. exists "KEY_A", "4". by vm_compute.
Defined.

(** X19. Every name and every value of a table that [readResource]
    returns is trimmed: it has no white space at either end. *)
Theorem readResource_trimmed (lines : list string) (d : gmap string string)
    (w : list (chan * string)) (k v : string) :
  DuckEncoder.readResource lines = (w, Ret d) →
  d !! k = Some v →
  Py.strip k = k ∧ Py.strip v = v.
Proof.
  intros Hrun Hk.
  by apply (readResource_loop_trimmed _ _ _ _ Hrun (map_Forall_empty _) k v).
Qed.

Lemma readResource_trimmed_witness :
  Py.strip "KEY_A" = "KEY_A" ∧ Py.strip "0x04" = "0x04".
Proof.
  apply (readResource_trimmed ["  KEY_A =   0x04  // the letter a" +:+ Py.nl]
           (<["KEY_A" := "0x04"]> ∅) []).
  - vm_compute. reflexivity.
  - done.
Defined.

(** ** Texts that always encode *)

Section Safety.
Import DuckEncoder.
Variables keyProp langProp : gmap string string.

Lemma keyval2chr_cases (v : string) :
  (∃ b, keyval2chr v = ret (String b "")) ∨ keyval2chr v = raise ValueError.
Proof.
  unfold keyval2chr, Py.int.
  destruct (decide (Py.upper (Py.slice_to 2 v) = "0X"));
    (destruct (Py.literal _ v) as [k|]; [|by right]);
    rewrite bind_ret_l; unfold Py.chr; case_decide; eauto.
Qed.

Lemma quiet_app (w1 w2 : list (chan * string)) :
  quiet w1 → quiet w2 → quiet (w1 ++ w2).
Proof. intros. by apply Forall_app. Qed.

Lemma entries_loop_quiet (entries : list string) (result : string) w o :
  entries_loop keyProp langProp entries result = (w, o) → quiet w.
Proof.
  revert result w o. induction entries as [|e es IH]; intros result w o.
  - intros [= <- _]. constructor.
  - cbn [entries_loop]. rewrite assign_keyval_table.
    destruct (table_value keyProp langProp (Py.strip e)) as [v|].
    + destruct (keyval2chr_cases v) as [[b ->]| ->].
      * rewrite bind_ret_l. apply IH.
      * intros [= <- _]. constructor.
    + intros [= <- _]. by repeat constructor.
Qed.

Lemma ASCIIChar2USBBytes_quiet (char : ascii) w o :
  ASCIIChar2USBBytes char keyProp langProp = (w, o) → quiet w.
Proof.
  unfold ASCIIChar2USBBytes.
  destruct (langProp !! charName char) as [names|].
  - destruct (entries_loop keyProp langProp (Py.split "," names) "")
      as [w1 [f|e]] eqn:Hloop; cbn [bind].
    + apply entries_loop_quiet in Hloop.
      destruct f as [r|v]; [case_decide|]; intros [= <- _];
        by rewrite app_nil_r.
    + apply entries_loop_quiet in Hloop. by intros [= <- _].
  - intros [= <- _]. by repeat constructor.
Qed.

Lemma entries_loop_returns (entries : list string) (result : string) :
  (∀ e v, e ∈ entries → table_value keyProp langProp (Py.strip e) = Some v →
          ∃ b, value_byte v b) →
  ∃ w f, entries_loop keyProp langProp entries result = (w, Ret f).
Proof.
  revert result. induction entries as [|e es IH]; intros result Hes.
  - by exists [], (Next result).
  - cbn [entries_loop]. rewrite assign_keyval_table.
    destruct (table_value keyProp langProp (Py.strip e)) as [v|] eqn:Hv.
    + destruct (Hes e v) as [b Hb]; [by left|done|].
      rewrite (keyval2chr_byte _ _ Hb), bind_ret_l.
      apply IH. intros e' v' Hin. apply Hes. by right.
    + by eexists _, _.
Qed.

Lemma ASCIIChar2USBBytes_returns (char : ascii) :
  entries_are_bytes keyProp langProp →
  ∃ w data, ASCIIChar2USBBytes char keyProp langProp = (w, Ret data).
Proof.
  intros Hbytes. unfold ASCIIChar2USBBytes.
  destruct (langProp !! charName char) as [names|] eqn:Hnames.
  - destruct (entries_loop_returns (Py.split "," names) "") as (w & f & ->).
    { intros e v. by apply (Hbytes char names). }
    cbn [bind]. destruct f as [r|v]; [case_decide|]; by eexists _, _.
  - by eexists _, _.
Qed.

Lemma rawpassthru_simple (text : string) :
  rawpassthru text keyProp langProp
  = for_chars text (λ c result,
      keydata <- ASCIIChar2USBBytes c keyProp langProp ;;
      if decide (Py.len keydata > 0) then ret (result +:+ keydata)
      else ret result) "".
Proof.
  unfold rawpassthru. apply for_chars_ext. intros c r.
  cbn [for_chars]. by rewrite bind_ret_r.
Qed.

Lemma for_chars_returns (text : string) (result : string) :
  entries_are_bytes keyProp langProp →
  ∃ w payload,
    for_chars text (λ c result,
      keydata <- ASCIIChar2USBBytes c keyProp langProp ;;
      if decide (Py.len keydata > 0) then ret (result +:+ keydata)
      else ret result) result = (w, Ret payload)
    ∧ quiet w.
Proof.
  intros Hbytes. revert result.
  induction text as [|c text IH]; intros result.
  - exists [], result. split; [done|constructor].
  - cbn [for_chars].
    destruct (ASCIIChar2USBBytes_returns c Hbytes) as (w1 & data & Hc).
    rewrite (string_body_spec _ _ _ _ _ _ Hc). cbn [bind].
    destruct (IH (result +:+ data)) as (w2 & payload & -> & Hq).
    exists (w1 ++ w2), payload. split; [done|].
    apply quiet_app; [|done]. by eapply ASCIIChar2USBBytes_quiet.
Qed.

(** What [outhidStringDirect] writes, character by character, is what
    [out2hid] makes of the payload of all characters, when every
    character gives none or two bytes. *)
Lemma outhidStringDirect_payload (str payload0 payload : string) w :
  two_names_at_most langProp →
  pair_aligned payload0 →
  for_chars str (λ c payload,
    data <- ASCIIChar2USBBytes c keyProp langProp ;;
    ret (payload +:+ data)) payload0 = (w, Ret payload) →
  ∃ events, outhidStringDirect str keyProp langProp = (events, (w, Ret tt))
            ∧ out2hid payload = out2hid payload0 ++ events.
Proof.
  intros Htwo. revert payload0 w.
  induction str as [|c str IH]; intros payload0 w Hp0 Hrun.
  - cbn in Hrun. injection Hrun as <- <-. exists [].
    split; [done|by rewrite app_nil_r].
  - cbn [for_chars] in Hrun.
    apply bind_Ret_inv in Hrun as (w1 & p1 & w2 & Hc & Hrest & ->).
    apply bind_Ret_inv in Hc as (wc & data & w0 & Hc & [= <- <-] & ->).
    rewrite app_nil_r. cbn [outhidStringDirect]. rewrite Hc.
    assert (pair_aligned data) as Hdata.
    { apply pair_aligned_0_2.
      eapply (has_post_ASCIIChar2USBBytes keyProp langProp c Htwo); [done|].
      by eapply ASCIIChar2USBBytes_quiet. }
    destruct (IH (payload0 +:+ data) w2) as (events & -> & Hout);
      [by apply pair_aligned_app|done|].
    exists (out2hid data ++ events). split; [done|].
    rewrite Hout, out2hid_app_aligned by done. by rewrite (assoc_L (++)).
Qed.
End Safety.

(** X20. When every entry that the language table names for a character
    denotes a byte wherever it has a value, encoding a text never raises:
    the raw passthrough, and with it a STRING line and [outhidString],
    returns a payload, and writes to standard output at most; the
    payload has even length when no character entry names more than two
    keys. *)
Theorem text_never_raises (text : string)
    (keyProp langProp : gmap string string) :
  entries_are_bytes keyProp langProp →
  ∃ w payload,
    DuckEncoder.rawpassthru text keyProp langProp = (w, Ret payload)
    ∧ quiet w
    ∧ (two_names_at_most langProp → pair_aligned payload).
Proof.
  intros Hbytes. rewrite rawpassthru_simple.
  destruct (for_chars_returns keyProp langProp text "" Hbytes)
    as (w & payload & Hrun & Hq).
  exists w, payload. split_and!; [done|done|].
  intros Htwo.
  eapply (has_post_for_chars text _ "");
    [|apply pair_aligned_empty|exact Hrun|exact Hq].
  intros c r Hr. eapply has_post_bind;
    [by apply has_post_ASCIIChar2USBBytes|].
  intros keydata Hk%pair_aligned_0_2.
  case_decide; apply has_post_ret; [by apply pair_aligned_app|done].
Qed.

Lemma sample_entries_are_bytes : entries_are_bytes sample_keyboard sample_language.
Proof.
  intros c names e v Hnames He Hv.
  assert (map_Forall (λ _ names, Forall (λ e,
            Is_true (from_option (λ v, bool_decide (v ∈ ["0x04"; "0x02"])) true
                       (table_value sample_keyboard sample_language
                          (Py.strip e))))
            (Py.split "," names)) sample_language) as Hall.
  { apply (bool_decide_unpack _). vm_compute. exact I. }
  specialize (Hall _ _ Hnames). rewrite Forall_forall in Hall.
  specialize (Hall _ He). rewrite Hv in Hall.
  apply bool_decide_unpack in Hall.
  apply elem_of_cons in Hall as [->|Hall];
    [|apply list_elem_of_singleton in Hall as ->];
    eexists; eexists; split_and!; [vm_compute; reflexivity|lia|lia|done|
                                   vm_compute; reflexivity|lia|lia|done].
Qed.

Lemma text_never_raises_witness :
  ∃ w payload,
    DuckEncoder.rawpassthru "A text" sample_keyboard sample_language
    = (w, Ret payload)
    ∧ quiet w ∧ (two_names_at_most sample_language → pair_aligned payload).
Proof.
  apply (text_never_raises "A text" sample_keyboard sample_language).
  apply sample_entries_are_bytes.
Defined.

(** X21. When no character entry names more than two keys and
    [outhidString] returns, [outhidStringDirect] ends without exception
    too, writes the same to standard output and does the same at the
    device: the same reports and sleeps, in the same order. *)
Theorem outhidStringDirect_agrees (str : string)
    (keyProp langProp : gmap string string) (w : list (chan * string))
    (events : list DuckEncoder.hid_event) :
  two_names_at_most langProp →
  DuckEncoder.outhidString str keyProp langProp = (w, Ret events) →
  DuckEncoder.outhidStringDirect str keyProp langProp = (events, (w, Ret tt)).
Proof.
  intros Htwo Hrun. unfold DuckEncoder.outhidString in Hrun.
  apply bind_Ret_inv in Hrun as (w1 & payload & w2 & Hrun & [= <- <-] & ->).
  rewrite app_nil_r.
  destruct (outhidStringDirect_payload keyProp langProp str "" payload w1 Htwo
              pair_aligned_empty Hrun) as (events & -> & ->).
  done.
Qed.

Lemma outhidStringDirect_agrees_witness :
  DuckEncoder.outhidStringDirect "Aa" sample_keyboard sample_language
  = ([DuckEncoder.Write (DuckEncoder.report "004" "002");
      DuckEncoder.Write (DuckEncoder.report "004" "000")], ([], Ret tt)).
Proof.
  apply (outhidStringDirect_agrees "Aa" sample_keyboard sample_language).
  - apply sample_language_two_names.
  - vm_compute. reflexivity.
Defined.

(** ** Lines without argument, delays, names *)

Section More.
Import DuckEncoder.
Variables keyProp langProp : gmap string string.

Lemma sleep_delay_bytes (d : Z) :
  0 ≤ d → out2hid_sleep_ms (delay_bytes d) = d.
Proof.
  intros Hd. unfold delay_bytes. rewrite sleep_repeat.
  assert (0 ≤ d / 255) by (apply Z.div_pos; lia).
  pose proof (Z.mod_pos_bound d 255 ltac:(lia)) as Hr.
  cbn [last_step out2hid_sleep_ms]. change (Py.ord "000") with 0.
  rewrite decide_True by done. rewrite ord_chr by lia. rewrite Z2Nat.id by lia.
  pose proof (Z.div_mod d 255 ltac:(lia)). lia.
Qed.

Lemma length_delay_bytes (d : Z) :
  String.length (delay_bytes d) = (2 * S (Z.to_nat (d / 255)))%nat.
Proof.
  unfold delay_bytes. rewrite length_app, length_repeat_str.
  cbn [String.length full_step last_step]. lia.
Qed.

Lemma charName_code (c : ascii) : name_code (charName c) = Some (Py.ord c).
Proof. destruct c as [[] [] [] [] [] [] [] []]; vm_compute; reflexivity. Qed.
End More.

(** X22. A DELAY line whose argument reads as the number [d >= 0] gives
    a payload for which [out2hid] sleeps [d] ms in all, and writes
    [d / 255 + 1] reports, one for each delay code. *)
Theorem delay_line (line : string) (d : Z)
    (keyProp langProp : gmap string string) :
  cmd_of line = "DELAY" →
  Py.literal 10 (args_of line) = Some d →
  0 ≤ d →
  ∃ payload,
    DuckEncoder.parseScriptLine line keyProp langProp = ([], Ret payload)
    ∧ slept (DuckEncoder.out2hid payload) = d
    ∧ Z.of_nat (length (writes (DuckEncoder.out2hid payload))) = d / 255 + 1.
Proof.
  unfold cmd_of, args_of, DuckEncoder.parseScriptLine.
  destruct (Py.partition " " line) as [[cmd sep] args]. cbn [fst snd].
  intros -> Hlit Hd. decide_closed. unfold Py.int. rewrite Hlit, bind_ret_l.
  rewrite delay2USBBytes_eq. fold (delay_bytes d).
  exists (delay_bytes d). split; [done|].
  destruct (out2hid_facts (delay_bytes d)) as (Hn & _ & Hs).
  rewrite Hs, Hn, length_delay_bytes. split; [by apply sleep_delay_bytes|].
  assert (0 ≤ d / 255) by (apply Z.div_pos; lia).
  replace (2 * S (Z.to_nat (d / 255)))%nat
    with (0 + S (Z.to_nat (d / 255)) * 2)%nat by lia.
  rewrite Nat.div_add by lia. cbn [Nat.div Nat.divmod fst Nat.add]. lia.
Qed.

Lemma delay_line_witness :
  ∃ payload,
    DuckEncoder.parseScriptLine "DELAY 600" sample_keyboard sample_language
    = ([], Ret payload)
    ∧ slept (DuckEncoder.out2hid payload) = 600
    ∧ Z.of_nat (length (writes (DuckEncoder.out2hid payload))) = 600 / 255 + 1.
Proof. by apply (delay_line "DELAY 600" 600). Defined.

(** X23. Without argument, a STRING, STRING_DELAY, CTRL-ALT, CTRL-SHIFT
    or COMMAND-OPTION line encodes to nothing; a GUI or WINDOWS line to
    the KEY_LEFT_GUI byte and the MODIFIERKEY_LEFT_GUI byte; a COMMAND line
    to the KEY_COMMAND byte and a zero; an ALT-SHIFT line to the
    KEY_LEFT_ALT byte and the or of the MODIFIERKEY_LEFT_ALT and
    MODIFIERKEY_SHIFT bytes. *)
Theorem no_argument_lines (line : string)
    (keyProp langProp : gmap string string) :
  args_of line = "" →
  (cmd_of line ∈ ["STRING"; "STRING_DELAY"; "CTRL-ALT"; "CTRL-SHIFT";
                  "COMMAND-OPTION"] →
   DuckEncoder.parseScriptLine line keyProp langProp = ([], Ret ""))
  ∧ (cmd_of line ∈ ["GUI"; "WINDOWS"] → ∀ k m,
     entry_byte keyProp langProp "KEY_LEFT_GUI" k →
     entry_byte keyProp langProp "MODIFIERKEY_LEFT_GUI" m →
     DuckEncoder.parseScriptLine line keyProp langProp
     = ([], Ret (String k (String m ""))))
  ∧ (cmd_of line = "COMMAND" → ∀ k,
     entry_byte keyProp langProp "KEY_COMMAND" k →
     DuckEncoder.parseScriptLine line keyProp langProp
     = ([], Ret (String k (String "000" ""))))
  ∧ (cmd_of line = "ALT-SHIFT" → ∀ k a b,
     entry_byte keyProp langProp "KEY_LEFT_ALT" k →
     entry_byte keyProp langProp "MODIFIERKEY_LEFT_ALT" a →
     entry_byte keyProp langProp "MODIFIERKEY_SHIFT" b →
     DuckEncoder.parseScriptLine line keyProp langProp
     = ([], Ret (String k (String (byte_or a b) "")))).
Proof.
  unfold cmd_of, args_of, DuckEncoder.parseScriptLine.
  destruct (Py.partition " " line) as [[cmd sep] args]. cbn [fst snd].
  generalize (Py.strip cmd). clear cmd. intros cmd ->. split_and!.
  - intros Hin.
    repeat (apply elem_of_cons in Hin as [->|Hin]; [by decide_closed|]).
    by apply elem_of_nil in Hin.
  - intros Hin k m Hk Hm.
    repeat (apply elem_of_cons in Hin as [->|Hin];
      [decide_closed;
       by rewrite (prop2USBByte_entry _ _ _ _ Hk), bind_ret_l,
         (prop2USBByte_entry _ _ _ _ Hm), bind_ret_l|]).
    by apply elem_of_nil in Hin.
  - intros -> k Hk. decide_closed.
    by rewrite (prop2USBByte_entry _ _ _ _ Hk), bind_ret_l.
  - intros -> k a b Hk Ha Hb. decide_closed.
    by rewrite (prop2USBByte_entry _ _ _ _ Hk), bind_ret_l,
      (modifier_or_bytes _ _ _ _ _ _ Ha Hb), bind_ret_l.
Qed.

Lemma no_argument_lines_witness :
  DuckEncoder.parseScriptLine "CTRL-ALT" sample_keyboard sample_language
  = ([], Ret "")
  ∧ DuckEncoder.parseScriptLine "ALT-SHIFT" sample_keyboard sample_language
    = ([], Ret (String "226" (String "006" ""))).
Proof.
  split.
  - refine (proj1 (no_argument_lines "CTRL-ALT" sample_keyboard
                     sample_language _) _); [done|].
    apply (bool_decide_unpack _). vm_compute. exact I.
  - refine (proj2 (proj2 (proj2 (no_argument_lines "ALT-SHIFT" sample_keyboard
                                   sample_language _))) _ "226" "004" "002" _ _ _)%char;
      [done|done|entry_by_eval..].
Defined.

(** X24. The name under which [ASCIIChar2USBBytes] looks a character up
    ends in the two hexadecimal digits of the character's code, so two
    different characters never have the same name. *)
Theorem charName_injective (c : ascii) :
  name_code (DuckEncoder.charName c) = Some (Py.ord c)
  ∧ ∀ c', DuckEncoder.charName c = DuckEncoder.charName c' → c = c'.
Proof.
  split; [apply charName_code|]. intros c' Heq.
  pose proof (charName_code c) as H1. rewrite Heq, charName_code in H1.
  injection H1 as H1. unfold Py.ord in H1. apply N2Z.inj in H1.
  by rewrite <-(ascii_N_embedding c), <-(ascii_N_embedding c'), H1.
Qed.

(** X25. A line that encodes to [r], followed by a REPEAT line with the
    count [n >= 0], gives [r] in all [n + 1] times, and the output of the
    line as many times. *)
Theorem line_then_repeat (l rl rp count r : string) (n : Z)
    (w : list (chan * string)) (keyProp langProp : gmap string string) :
  plain l →
  DuckEncoder.parseScriptLine (clean l) keyProp langProp = (w, Ret r) →
  Py.slice_to 7 (clean rl) = "REPEAT " →
  Py.split1 " " (clean rl) = [rp; count] →
  Py.literal 10 (Py.strip count) = Some n →
  0 ≤ n →
  DuckEncoder.parseScript_loop keyProp langProp [l; rl] ("", None)
  = (concat (replicate (S (Z.to_nat n)) w),
     Ret (DuckEncoder.repeat_str (S (Z.to_nat n)) r)).
Proof.
  intros Hl Hr Hrl Hs Hn Hpos. cbn [DuckEncoder.parseScript_loop].
  rewrite (parseScript_step_plain _ _ _ _ _ Hl), Hr. cbn [bind ret].
  rewrite (parseScript_step_repeat _ _ _ _ _ _ _ Hrl Hs).
  unfold Py.int. rewrite Hn, bind_ret_l.
  rewrite (repeat_line_run _ _ _ _ _ _ _ Hr). cbn [bind ret fst].
  by rewrite !app_nil_r.
Qed.

Lemma line_then_repeat_witness :
  DuckEncoder.parseScript_loop sample_keyboard sample_language
    ["STRING A" +:+ Py.nl; "REPEAT 2"] ("", None)
  = ([], Ret (DuckEncoder.repeat_str 3 (String "004" (String "002" "")))).
Proof.
  apply (line_then_repeat ("STRING A" +:+ Py.nl) "REPEAT 2" "REPEAT" "2"
           (String "004" (String "002" "")) 2 []); try done.
  split; [|done]. intros [H|[[t H]|[t H]]]; vm_compute in H; discriminate.
Defined.
